(** * The MySQL mode of Vigil: admission and lifecycle of the listening server

    Shallow embedding of [cluster/vigil/vigil/modes/mysql/server.go].

    The Go code is a set of methods on one [*Server]; they mutate the struct
    and call collaborators that live in other packages (the policy client, the
    secret store, the TLS layer, the per-connection [dctx]).  Here a method is
    a function in a small state-and-trace monad over the [Server] record: the
    state is the struct, the trace is the sequence of calls made on the
    collaborators, in program order.  What a collaborator answers is an input
    of the method (a "world" record), so every path of the code can be run.

    Mutexes are not modelled as data: a method body that runs under [s.mu] or
    [s.dctxMap.mu] is one atomic function on the state, which is what the lock
    gives it. *)

From stdpp Require Import gmap strings list fin_maps.

(** ** Values returned by Go calls *)

(** A Go call returning [(T, error)]. *)
Inductive result (E A : Type) : Type :=
| Ok (a : A)
| Err (e : E).
Arguments Ok {E A} a.
Arguments Err {E A} e.

(** Run-time panics that the methods of this file can raise themselves. *)
Inductive panic : Type :=
| PanicNilFunc            (* call of a nil func value *)
| PanicCloseOfClosedChan. (* close of a closed channel *)

(** How a method call ends: it returns a value or it panics. *)
Inductive outcome (A : Type) : Type :=
| Returned (a : A)
| Panicked (p : panic).
Arguments Returned {A} a.
Arguments Panicked {A} p.

(** A [chan struct{}] on which nothing is ever sent: only open or closed. *)
Inductive chan : Type := ChanOpen | ChanClosed.

(** [context.CancelFunc]: the only one the file creates is the cancel
    function of the context derived in [Run]. *)
Inductive CancelFunc : Type := cancelRunCtx.

(** The two markers of [corev1.AccessLog_Entry_Info_MySQL]. *)
Inductive LogType : Type := SESSION_START | SESSION_END.

(** The part of [corev1.Service] that the file reads. *)
Record Service : Type := {
  Spec_IsTLS : bool;
  RealPort : nat
}.

(** TLS constants of [crypto/tls]. *)
Definition NoClientCert : nat := 0.
Definition VersionTLS12 : nat := 771.
Definition VersionTLS13 : nat := 772.

(** How [dctx.serve] comes back.  It has no return value in Go: the three
    ways are indistinguishable to the caller, and are kept apart here only so
    that statements can quantify over them. *)
Inductive serve_exit : Type := ServeCompleted | ServeFailed | ServeCancelled.

Section Vigil.

(** Types declared in other packages: Go errors, [*corev1.Secret],
    [*tls.Certificate], [net.Conn], [net.Listener], [*server.Conn], the
    request context and the decision reason of the policy answer. *)
Context {error Secret Certificate Conn Listener DownstreamConn ReqCtx Reason : Type}.

(** [grpcerr.IsNotFound]. *)
Variable IsNotFound : error → bool.

(** The test of [serve] on an accept error: the error is a [net.OpError]
    and its [Timeout()] holds. *)
Variable IsOpErrorTimeout : error → bool.

(** [ocrypto.GetTLSCertificate]: a Go pair, certificate and error. *)
Variable GetTLSCertificate : Secret → option Certificate * option error.

(** *** Data *)

(** [coctovigilv1.AuthenticateAndAuthorizeResponse], the fields read here. *)
Record AuthResp : Type := {
  IsAuthenticated : bool;
  IsAuthorized : bool;
  RequestContext : option ReqCtx;
  AuthorizationDecisionReason : option Reason
}.

(** [logentry.InitializeLogEntryOpts] together with the [Info.Type] set on the
    entry afterwards.  A field that the Go literal leaves out has its zero
    value: [false], [None], the empty string. *)
Record LogEntry : Type := {
  le_Type : LogType;
  le_StartTime : nat;
  le_IsAuthenticated : bool;
  le_IsAuthorized : bool;
  le_ReqCtx : option ReqCtx;
  le_ConnectionID : string;
  le_Reason : option Reason
}.

(** Modelled from the spec: the [dctx] struct and [newDctx] are declared in
    another file of the package.  A Session Entry has "a unique session
    identifier (string), creation timestamp, a reference to the downstream
    socket, [...] and the authorization request context". *)
Record dctx : Type := {
  id : string;
  createdAt : nat;
  dctx_conn : Conn;
  dctx_reqCtx : option ReqCtx
}.

(** [tls.Config] as built by [setTLSConfig].  [GetCertificate] is a closure
    over the server: it reads [s.crtMan.crt] when it is called, so it is a
    function of what the holder contains at that time. *)
Record tlsConfig : Type := {
  ClientAuth : nat;
  MinVersion : nat;
  MaxVersion : nat;
  GetCertificate : option Secret → option Certificate * option error
}.

(** The mutable fields of [Server].  The collaborators held by reference
    ([octovigilC], [vCache], [lbManager], ...) are never reassigned; their
    answers come in through the world records below. *)
Record Server : Type := {
  lis : option Listener;
  cancelFn : option CancelFunc;
  doneComplete : chan;
  dctxMap : gmap string dctx;
  isClosed : bool;
  crtMan_crt : option Secret;
  tlsCfgMan_tlsCfg : option tlsConfig
}.

Definition set_lis (l : option Listener) (s : Server) : Server :=
  {| lis := l; cancelFn := cancelFn s; doneComplete := doneComplete s;
     dctxMap := dctxMap s; isClosed := isClosed s;
     crtMan_crt := crtMan_crt s; tlsCfgMan_tlsCfg := tlsCfgMan_tlsCfg s |}.

Definition set_cancelFn (f : option CancelFunc) (s : Server) : Server :=
  {| lis := lis s; cancelFn := f; doneComplete := doneComplete s;
     dctxMap := dctxMap s; isClosed := isClosed s;
     crtMan_crt := crtMan_crt s; tlsCfgMan_tlsCfg := tlsCfgMan_tlsCfg s |}.

Definition set_doneComplete (c : chan) (s : Server) : Server :=
  {| lis := lis s; cancelFn := cancelFn s; doneComplete := c;
     dctxMap := dctxMap s; isClosed := isClosed s;
     crtMan_crt := crtMan_crt s; tlsCfgMan_tlsCfg := tlsCfgMan_tlsCfg s |}.

Definition set_dctxMap (m : gmap string dctx) (s : Server) : Server :=
  {| lis := lis s; cancelFn := cancelFn s; doneComplete := doneComplete s;
     dctxMap := m; isClosed := isClosed s;
     crtMan_crt := crtMan_crt s; tlsCfgMan_tlsCfg := tlsCfgMan_tlsCfg s |}.

Definition set_isClosed (b : bool) (s : Server) : Server :=
  {| lis := lis s; cancelFn := cancelFn s; doneComplete := doneComplete s;
     dctxMap := dctxMap s; isClosed := b;
     crtMan_crt := crtMan_crt s; tlsCfgMan_tlsCfg := tlsCfgMan_tlsCfg s |}.

Definition set_crt (c : option Secret) (s : Server) : Server :=
  {| lis := lis s; cancelFn := cancelFn s; doneComplete := doneComplete s;
     dctxMap := dctxMap s; isClosed := isClosed s;
     crtMan_crt := c; tlsCfgMan_tlsCfg := tlsCfgMan_tlsCfg s |}.

Definition set_tlsCfg (c : option tlsConfig) (s : Server) : Server :=
  {| lis := lis s; cancelFn := cancelFn s; doneComplete := doneComplete s;
     dctxMap := dctxMap s; isClosed := isClosed s;
     crtMan_crt := crtMan_crt s; tlsCfgMan_tlsCfg := c |}.

(** *** Calls on collaborators, in the order the code makes them *)

Inductive event : Type :=
| EvCancel                                   (* s.cancelFn() *)
| EvDctxClose (d : dctx)                     (* dctx.close() *)
| EvListenerClose (l : Listener)             (* s.lis.Close() *)
| EvDoneClose                                (* close(s.doneComplete) *)
| EvConnClose (c : Conn)                     (* c.Close() *)
| EvAuthenticateAndAuthorize (c : Conn)      (* s.octovigilC.AuthenticateAndAuthorize *)
| EvEmitAccessLog (e : LogEntry)             (* otelutils.EmitAccessLog *)
| EvGetDownstreamConn (c : Conn)             (* s.getDownstreamConn(c) *)
| EvDownstreamConnClose (dc : DownstreamConn)(* downstreamConn.Close() *)
| EvConnect (d : dctx)                       (* dctx.connect: the upstream leg *)
| EvRegistryInsert (k : string)              (* s.dctxMap.dctxMap[k] = dctx *)
| EvRegistryDelete (k : string)              (* delete(s.dctxMap.dctxMap, k) *)
| EvAtRequestStart                           (* s.metricsStore.AtRequestStart() *)
| EvServe (d : dctx) (x : serve_exit)        (* dctx.serve(ctx), from call to return *)
| EvAtRequestEnd (t : nat)                   (* s.metricsStore.AtRequestEnd *)
| EvListen (port : nat)                      (* net.Listen *)
| EvGetSecret                                (* CoreC().GetSecret(ClusterCertSecretName) *)
| EvGoServe                                  (* go s.serve(ctx) *)
| EvAccept                                   (* s.lis.Accept() *)
| EvSleep (ms : nat)                         (* time.Sleep *)
| EvGoHandleConn (c : Conn).                 (* go s.handleConn(ctx, conn) *)

(** *** The monad of a method body: the struct is threaded, calls are logged *)

Definition M (A : Type) : Type := Server → Server * list event * A.

Definition ret {A} (a : A) : M A := λ s, (s, [], a).

Definition bind {A B} (m : M A) (k : A → M B) : M B :=
  λ s, let '(s1, t1, a) := m s in
       let '(s2, t2, b) := k a s1 in
       (s2, t1 ++ t2, b).

Definition call (e : event) : M unit := λ s, (s, [e], tt).
Definition load {A} (f : Server → A) : M A := λ s, (s, [], f s).
Definition store (f : Server → Server) : M unit := λ s, (f s, [], tt).

(** [for _, x := range l { body }], the elements coming in the order of [l]. *)
Fixpoint for_range {A} (l : list A) (body : A → M unit) : M unit :=
  match l with
  | [] => λ s, (s, [], tt)
  | x :: l' => λ s,
    let '(s1, t1, _) := body x s in
    let '(s2, t2, _) := for_range l' body s1 in
    (s2, t1 ++ t2, tt)
  end.

Notation "x ←' m ; k" := (bind m (λ x, k))
  (at level 100, m at next level, right associativity, format "x  ←'  m ;  '/' k").
Notation "m ;;' k" := (bind m (λ _, k))
  (at level 100, right associativity, format "m  ;;'  '/' k").

Definition state_of {A} (r : Server * list event * A) : Server := r.1.1.
Definition trace_of {A} (r : Server * list event * A) : list event := r.1.2.
Definition value_of {A} (r : Server * list event * A) : A := r.2.

(** *** [New] *)

(** The struct literal of [New]: an open completion channel, an empty
    registry, everything else at its zero value. *)
Definition newServer : Server :=
  {| lis := None; cancelFn := None; doneComplete := ChanOpen;
     dctxMap := ∅; isClosed := false;
     crtMan_crt := None; tlsCfgMan_tlsCfg := None |}.

(** [New] fails only when [metricutils.NewCommonMetrics] does. *)
Definition New (metrics : option error) : result error Server :=
  match metrics with
  | Some e => Err e
  | None => Ok newServer
  end.

(** *** [SetClusterCertificate] *)

Definition SetClusterCertificate (crt : option Secret) : M (option error) :=
  store (set_crt crt) ;;'
  ret None.

(** *** [Close] *)

Section Close.

(** [for _, dctx := range s.dctxMap.dctxMap]: Go leaves the order of a range
    over a map unspecified; it is whatever [rangeOrder] says, and the only
    thing known of it is that it visits every entry once. *)
Variable rangeOrder : gmap string dctx → list (string * dctx).

Definition Close : M (outcome (option error)) :=
  closed ←' load isClosed;
  if (closed : bool) then ret (Returned None)
  else
    store (set_isClosed true) ;;'
    f ←' load cancelFn;
    match f with
    | None => ret (Panicked PanicNilFunc)
    | Some _ =>
      call EvCancel ;;'
      m ←' load dctxMap;
      for_range (rangeOrder m) (λ kd, call (EvDctxClose kd.2)) ;;'
      l ←' load lis;
      match l with
      | Some l => call (EvListenerClose l)
      | None => ret tt
      end ;;'
      done ←' load doneComplete;
      match done with
      | ChanClosed => ret (Panicked PanicCloseOfClosedChan)
      | ChanOpen =>
        store (set_doneComplete ChanClosed) ;;'
        call EvDoneClose ;;'
        ret (Returned None)
      end
    end.

(** A run of [n] calls of [Close], one after the other (they hold [s.mu] for
    their whole body, so concurrent calls are some such sequence).  The
    result keeps, call by call, what the call did and how it ended. *)
Fixpoint CloseCalls (n : nat) (s : Server)
  : Server * list (list event * outcome (option error)) :=
  match n with
  | O => (s, [])
  | S k =>
    let '(s1, t, o) := Close s in
    let '(s2, rs) := CloseCalls k s1 in
    (s2, (t, o) :: rs)
  end.

End Close.

(** *** [setTLSConfig] and the certificate-selection callback *)

(** A Go pair [(v, err)] as the two variables it is assigned to. *)
Definition go_pair {A} (r : result error A) : option A * option error :=
  match r with
  | Ok a => (Some a, None)
  | Err e => (None, Some e)
  end.

(** The [tls.Config] literal of [setTLSConfig]. *)
Definition clusterTLSConfig : tlsConfig :=
  {| ClientAuth := NoClientCert;
     MinVersion := VersionTLS12;
     MaxVersion := VersionTLS13;
     GetCertificate := λ crt,
       match crt with
       | None => (None, None)
       | Some c => GetTLSCertificate c
       end |}.

(** What the collaborators of [Run] answer: [net.Listen], the cached Service
    (which [Run] reads without a nil test: it is modelled where the cache
    holds one) and the secret store. *)
Record RunWorld : Type := {
  rw_svc : Service;
  rw_listen : result error Listener;
  rw_getSecret : result error Secret
}.

Definition setTLSConfig (w : RunWorld) : M (option error) :=
  call EvGetSecret ;;'
  let '(crt, err) := go_pair (rw_getSecret w) in
  match err with
  | Some e =>
    if negb (IsNotFound e) then ret (Some e)
    else
      store (set_crt crt) ;;'
      store (set_tlsCfg (Some clusterTLSConfig)) ;;'
      ret None
  | None =>
    store (set_crt crt) ;;'
    store (set_tlsCfg (Some clusterTLSConfig)) ;;'
    ret None
  end.

(** One call of the certificate-selection callback by the TLS layer, on the
    configuration the server holds at that time ([None]: no configuration,
    so no callback). *)
Definition clientHello : M (option (option Certificate * option error)) :=
  cfg ←' load tlsCfgMan_tlsCfg;
  crt ←' load crtMan_crt;
  ret ((λ c, GetCertificate c crt) <$> cfg).

(** Rotations and handshakes.  Both sides take [s.crtMan.mu], so a history of
    them is a sequence; [tlsHistory] runs one and returns what each callback
    call returned, oldest first. *)
Inductive tls_op : Type :=
| OpSetClusterCertificate (crt : option Secret)
| OpClientHello.

Fixpoint tlsHistory (ops : list tls_op) (s : Server)
  : Server * list (option (option Certificate * option error)) :=
  match ops with
  | [] => (s, [])
  | OpSetClusterCertificate crt :: ops' =>
    tlsHistory ops' (state_of (SetClusterCertificate crt s))
  | OpClientHello :: ops' =>
    let r := clientHello s in
    let '(s', rs) := tlsHistory ops' (state_of r) in
    (s', value_of r :: rs)
  end.

(** *** [Run] *)

Definition Run (w : RunWorld) : M (option error) :=
  call (EvListen (RealPort (rw_svc w))) ;;'
  let '(l, err) := go_pair (rw_listen w) in
  store (set_lis l) ;;'
  match err with
  | Some e => ret (Some e)
  | None =>
    let svc := rw_svc w in
    err ←' (if Spec_IsTLS svc then setTLSConfig w else ret None);
    match err with
    | Some e => ret (Some e)
    | None =>
      store (set_cancelFn (Some cancelRunCtx)) ;;'
      call EvGoServe ;;'
      ret None
    end
  end.

(** Several calls of [Run] in a row, with the error each returned. *)
Fixpoint RunCalls (ws : list RunWorld) (s : Server) : Server * list (option error) :=
  match ws with
  | [] => (s, [])
  | w :: ws' =>
    let r := Run w s in
    let '(s', es) := RunCalls ws' (state_of r) in
    (s', value_of r :: es)
  end.

(** *** [serve]: the accept loop *)

(** What [s.lis.Accept()] returns. *)
Inductive accept_result : Type :=
| AcceptConn (c : Conn)
| AcceptErr (e : error).

(** One round of the loop as the outside decides it: the answer of [Accept],
    and whether [ctx.Done()] is closed when the [select] looks at it. *)
Record accept_round : Type := {
  ar_accept : accept_result;
  ar_ctxDone : bool
}.

Inductive loop_status : Type :=
| LoopAccepting   (* back at the top of the [for], in [Accept] *)
| LoopReturned.   (* [serve] has returned *)

(** The body of the [for]. *)
Definition serveRound (a : accept_round) : list event * loop_status :=
  match ar_accept a with
  | AcceptErr e =>
    if IsOpErrorTimeout e then ([EvAccept; EvSleep 100], LoopAccepting)
    else if ar_ctxDone a then ([EvAccept], LoopReturned)
    else ([EvAccept; EvSleep 100], LoopAccepting)
  | AcceptConn c => ([EvAccept; EvGoHandleConn c], LoopAccepting)
  end.

(** The loop on a finite prefix of what the listener will ever answer.  When
    the prefix is used up the loop is still there, blocked in [Accept]. *)
Fixpoint serve (rounds : list accept_round) : list event * loop_status :=
  match rounds with
  | [] => ([], LoopAccepting)
  | a :: rounds' =>
    match serveRound a with
    | (t, LoopReturned) => (t, LoopReturned)
    | (t, LoopAccepting) =>
      let '(t', st) := serve rounds' in (t ++ t', st)
    end
  end.

(** *** [handleConn] *)

(** What the collaborators of one [handleConn] answer. *)
Record ConnWorld : Type := {
  cw_now : nat;                                  (* time.Now() *)
  cw_svc : option Service;                       (* s.svc() *)
  cw_auth : result error AuthResp;               (* AuthenticateAndAuthorize *)
  cw_downstreamConn : result error DownstreamConn; (* s.getDownstreamConn(c) *)
  cw_id : string;                                (* the id newDctx draws *)
  cw_createdAt : nat;                            (* the createdAt newDctx sets *)
  cw_connect : option error;                     (* dctx.connect *)
  cw_serve : serve_exit;                         (* how dctx.serve comes back *)
  cw_others : gmap string dctx → gmap string dctx
    (* what the other goroutines do to the registry while this one is in
       dctx.serve *)
}.

(** Modelled from the spec: [newDctx] is in another file of the package; it
    builds the Session Entry with a fresh id and the creation time. *)
Definition newDctx (w : ConnWorld) (c : Conn) (i : option ReqCtx) : dctx :=
  {| id := cw_id w; createdAt := cw_createdAt w; dctx_conn := c; dctx_reqCtx := i |}.

Definition handleConn (w : ConnWorld) (c : Conn) : M unit :=
  let startTime := cw_now w in
  match cw_svc w with
  | None => call (EvConnClose c)
  | Some svc =>
    call (EvAuthenticateAndAuthorize c) ;;'
    match cw_auth w with
    | Err _ => call (EvConnClose c)
    | Ok authResp =>
      if IsAuthenticated authResp && negb (IsAuthorized authResp) then
        call (EvEmitAccessLog
                {| le_Type := SESSION_START;
                   le_StartTime := startTime;
                   le_IsAuthenticated := true;
                   le_IsAuthorized := false;
                   le_ReqCtx := RequestContext authResp;
                   le_ConnectionID := "";
                   le_Reason := AuthorizationDecisionReason authResp |}) ;;'
        call (EvConnClose c)
      else
        let i := RequestContext authResp in
        call (EvGetDownstreamConn c) ;;'
        match cw_downstreamConn w with
        | Err _ => call (EvConnClose c)
        | Ok downstreamConn =>
          let d := newDctx w c i in
          call (EvConnect d) ;;'
          match cw_connect w with
          | Some _ =>
            call (EvDownstreamConnClose downstreamConn) ;;'
            call (EvConnClose c)
          | None =>
            call (EvEmitAccessLog
                    {| le_Type := SESSION_START;
                       le_StartTime := startTime;
                       le_IsAuthenticated := true;
                       le_IsAuthorized := true;
                       le_ReqCtx := i;
                       le_ConnectionID := id d;
                       le_Reason := AuthorizationDecisionReason authResp |}) ;;'
            m ←' load dctxMap;
            store (set_dctxMap (<[id d := d]> m)) ;;'
            call (EvRegistryInsert (id d)) ;;'
            call EvAtRequestStart ;;'
            m ←' load dctxMap;
            store (set_dctxMap (cw_others w m)) ;;'
            call (EvServe d (cw_serve w)) ;;'
            call (EvAtRequestEnd (createdAt d)) ;;'
            m ←' load dctxMap;
            store (set_dctxMap (delete (id d) m)) ;;'
            call (EvRegistryDelete (id d)) ;;'
            call (EvEmitAccessLog
                    {| le_Type := SESSION_END;
                       le_StartTime := startTime;
                       le_IsAuthenticated := true;
                       le_IsAuthorized := true;
                       le_ReqCtx := i;
                       le_ConnectionID := id d;
                       le_Reason := None |}) ;;'
            (* defer dctx.close(), registered after serve: runs at return *)
            call (EvDctxClose d)
          end
        end
    end
  end.

(** *** Vocabulary of the statements *)

(** The state [Run] leaves behind when it succeeds on a fresh server, as far
    as [Close] reads it. *)
Definition running (s : Server) : Prop :=
  is_Some (lis s) ∧ is_Some (cancelFn s) ∧
  doneComplete s = ChanOpen ∧ isClosed s = false.

(** Number of elements of a list that pass a boolean test. *)
Fixpoint countb {A} (p : A → bool) (l : list A) : nat :=
  match l with
  | [] => 0
  | a :: l' => (if p a then 1 else 0) + countb p l'
  end.

Definition isCancel (e : event) : bool :=
  match e with EvCancel => true | _ => false end.

Definition isDoneClose (e : event) : bool :=
  match e with EvDoneClose => true | _ => false end.

Definition isEmitAccessLog (e : event) : bool :=
  match e with EvEmitAccessLog _ => true | _ => false end.

Definition isRegistryInsert (e : event) : bool :=
  match e with EvRegistryInsert _ => true | _ => false end.

Definition isConnClose (e : event) : bool :=
  match e with EvConnClose _ => true | _ => false end.

Definition isConnect (e : event) : bool :=
  match e with EvConnect _ => true | _ => false end.

(** The session-start entry of an admitted connection. *)
Definition sessionStart (w : ConnWorld) (r : AuthResp) : LogEntry :=
  {| le_Type := SESSION_START;
     le_StartTime := cw_now w;
     le_IsAuthenticated := true;
     le_IsAuthorized := true;
     le_ReqCtx := RequestContext r;
     le_ConnectionID := cw_id w;
     le_Reason := AuthorizationDecisionReason r |}.

(** The session-end entry. *)
Definition sessionEnd (w : ConnWorld) (r : AuthResp) : LogEntry :=
  {| le_Type := SESSION_END;
     le_StartTime := cw_now w;
     le_IsAuthenticated := true;
     le_IsAuthorized := true;
     le_ReqCtx := RequestContext r;
     le_ConnectionID := cw_id w;
     le_Reason := None |}.

(** A call of [Close] performed the teardown when it went as far as
    cancelling the context. *)
Definition performedTeardown (r : list event * outcome (option error)) : bool :=
  existsb isCancel r.1.

(** The events of a run of calls, in order. *)
Definition allEvents (rs : list (list event * outcome (option error))) : list event :=
  concat (fst <$> rs).

(** *** Further vocabulary: what a trace contains *)

Definition isDctxClose (e : event) : bool :=
  match e with EvDctxClose _ => true | _ => false end.

Definition isAuthenticateAndAuthorize (e : event) : bool :=
  match e with EvAuthenticateAndAuthorize _ => true | _ => false end.

Definition isListenerClose (e : event) : bool :=
  match e with EvListenerClose _ => true | _ => false end.

Definition isGetSecret (e : event) : bool :=
  match e with EvGetSecret => true | _ => false end.

Definition isGoServe (e : event) : bool :=
  match e with EvGoServe => true | _ => false end.

Definition isDownstreamConnClose (e : event) : bool :=
  match e with EvDownstreamConnClose _ => true | _ => false end.

Definition isAccept (e : event) : bool :=
  match e with EvAccept => true | _ => false end.

Definition isSleep100 (e : event) : bool :=
  match e with EvSleep 100 => true | _ => false end.

Definition isSleep (e : event) : bool :=
  match e with EvSleep _ => true | _ => false end.

(** The steps of [handleConn] that come after the test of the verdict: the
    handshake, the upstream connection, the insertion and the serving. *)
Definition isPastGate (e : event) : bool :=
  match e with
  | EvGetDownstreamConn _ | EvConnect _ | EvRegistryInsert _ | EvServe _ _ => true
  | _ => false
  end.

(** The access-log entries of a trace, in the order they were emitted. *)
Definition logEntries (t : list event) : list LogEntry :=
  omap (λ e, match e with EvEmitAccessLog l => Some l | _ => None end) t.

(** The entry [handleConn] emits for a connection it turns away as
    authenticated but not authorized. *)
Definition sessionDenied (w : ConnWorld) (r : AuthResp) : LogEntry :=
  {| le_Type := SESSION_START;
     le_StartTime := cw_now w;
     le_IsAuthenticated := true;
     le_IsAuthorized := false;
     le_ReqCtx := RequestContext r;
     le_ConnectionID := "";
     le_Reason := AuthorizationDecisionReason r |}.

(** The connections [Accept] returned in a list of rounds, oldest first. *)
Definition acceptedConns (rounds : list accept_round) : list Conn :=
  omap (λ a, match ar_accept a with AcceptConn c => Some c | AcceptErr _ => None end)
       rounds.

(** The connections handed to a [handleConn] goroutine in a trace. *)
Definition dispatchedConns (t : list event) : list Conn :=
  omap (λ e, match e with EvGoHandleConn c => Some c | _ => None end) t.

Definition isAcceptErr (a : accept_round) : bool :=
  match ar_accept a with AcceptErr _ => true | AcceptConn _ => false end.

(** What the certificate holder contains after a history, given what it
    contained before: the argument of the last rotation, if there was one. *)
Fixpoint holderAfter (ops : list tls_op) (crt : option Secret) : option Secret :=
  match ops with
  | [] => crt
  | OpSetClusterCertificate crt' :: ops' => holderAfter ops' crt'
  | OpClientHello :: ops' => holderAfter ops' crt
  end.

(** The number of handshakes of a history. *)
Definition helloCount (ops : list tls_op) : nat :=
  countb (λ o, match o with OpClientHello => true | _ => false end) ops.

(** * Properties *)

Ltac run_method :=
  unfold bind, call, load, store, ret, state_of, trace_of, value_of; simpl.

(** ** [Close] *)

Section CloseFacts.

Variable rangeOrder : gmap string dctx → list (string * dctx).
Hypothesis rangeOrder_perm : ∀ m, rangeOrder m ≡ₚ map_to_list m.

(** A loop whose body is one call makes the calls and leaves the state. *)
Lemma for_range_call {A} (l : list A) (body : A → M unit) (f : A → event)
    (s : Server) :
  (∀ x s', body x s' = call (f x) s') →
  for_range l body s = (s, f <$> l, tt).
Proof.
  intros Hb. induction l as [|x l IH]; [done|].
  cbn [for_range]. rewrite Hb. unfold call. by rewrite IH.
Qed.

(** On a closed server [Close] does nothing and returns nil. *)
Lemma Close_closed (s : Server) :
  isClosed s = true → Close rangeOrder s = (s, [], Returned None).
Proof. intros H. unfold Close. run_method. by rewrite H. Qed.

(** The one effective call on a running server, in full. *)
Lemma Close_running (s : Server) (l : Listener) :
  lis s = Some l → is_Some (cancelFn s) →
  doneComplete s = ChanOpen → isClosed s = false →
  Close rangeOrder s =
    (set_doneComplete ChanClosed (set_isClosed true s),
     EvCancel :: ((λ kd, EvDctxClose kd.2) <$> rangeOrder (dctxMap s))
       ++ [EvListenerClose l; EvDoneClose],
     Returned None).
Proof.
  intros Hl [f Hf] Hd Hc. unfold Close. run_method.
  rewrite Hc. simpl. rewrite Hf. simpl.
  rewrite (for_range_call _ _ (λ kd, EvDctxClose kd.2)); [|done].
  simpl. rewrite Hl. simpl. by rewrite Hd.
Qed.

Lemma CloseCalls_closed (n : nat) (s : Server) :
  isClosed s = true →
  CloseCalls rangeOrder n s = (s, replicate n ([], Returned None)).
Proof.
  intros H. induction n as [|n IH]; simpl; [done|].
  by rewrite (Close_closed s H), IH.
Qed.

Lemma countb_app {A} (p : A → bool) (l1 l2 : list A) :
  countb p (l1 ++ l2) = countb p l1 + countb p l2.
Proof. induction l1 as [|a l1 IH]; simpl; [done|]. rewrite IH. lia. Qed.

Lemma countb_none {A} (p : A → bool) (l : list A) :
  Forall (λ a, p a = false) l → countb p l = 0.
Proof. induction 1 as [|a l Ha _ IH]; simpl; [done|]. by rewrite Ha, IH. Qed.

Lemma allEvents_cons r rs : allEvents (r :: rs) = r.1 ++ allEvents rs.
Proof. done. Qed.

Lemma allEvents_idle (n : nat) :
  allEvents (replicate n ([], Returned None)) = [].
Proof. induction n as [|n IH]; [done|]. unfold allEvents in *. simpl. exact IH. Qed.

(** C3. [Close] is idempotent.  Take a running server and any number [S n]
    of calls of [Close], serialised by [s.mu]: every call returns nil;
    exactly one call performs the teardown; the completion channel is closed
    exactly once; and the calls after the first leave the server as the
    first left it. *)
Theorem Close_idempotent (s : Server) (n : nat) :
  running s →
  let rs := (CloseCalls rangeOrder (S n) s).2 in
  Forall (λ r, r.2 = Returned None) rs ∧
  countb performedTeardown rs = 1 ∧
  countb isDoneClose (allEvents rs) = 1 ∧
  (∀ k, (CloseCalls rangeOrder (S k) s).1 = state_of (Close rangeOrder s)) ∧
  (∀ k, Close rangeOrder (CloseCalls rangeOrder (S k) s).1
        = ((CloseCalls rangeOrder (S k) s).1, [], Returned None)).
Proof.
  intros ([l Hl] & Hf & Hd & Hc).
  pose proof (Close_running s l Hl Hf Hd Hc) as HC.
  set (s1 := set_doneComplete ChanClosed (set_isClosed true s)) in *.
  assert (H1 : isClosed s1 = true) by done.
  assert (Hcalls : ∀ k, CloseCalls rangeOrder (S k) s =
    (s1, (EvCancel :: ((λ kd, EvDctxClose kd.2) <$> rangeOrder (dctxMap s))
            ++ [EvListenerClose l; EvDoneClose], Returned None)
         :: replicate k ([], Returned None))).
  { intros k. simpl. rewrite HC. by rewrite (CloseCalls_closed k s1 H1). }
  cbv zeta. rewrite (Hcalls n). cbn [snd fst].
  split; [|split; [|split; [|split]]].
  - constructor; [done|]. apply Forall_forall. intros r Hr.
    by apply elem_of_replicate in Hr as [-> _].
  - cbn [countb]. replace (performedTeardown _) with true by done.
    rewrite countb_none; [done|].
    apply Forall_forall. intros r Hr. by apply elem_of_replicate in Hr as [-> _].
  - rewrite allEvents_cons, allEvents_idle, app_nil_r. cbn [fst countb isDoneClose].
    rewrite countb_app. rewrite countb_none.
    + done.
    + apply Forall_forall. intros e He.
      apply list_elem_of_fmap in He as (kd & -> & _). done.
  - intros k. rewrite (Hcalls k). unfold state_of. by rewrite HC.
  - intros k. rewrite (Hcalls k). cbn [fst]. by apply Close_closed.
Qed.

(** C4. Order of the teardown.  The effective [Close] of a running server
    makes these calls and no others: first the cancellation, then [close] on
    every session of the registry (each entry once, in the order of the
    range), then [Close] on the listener, and the completion channel is
    closed last. *)
Theorem Close_teardown_order (s : Server) :
  running s →
  ∃ (l : Listener) (ds : list dctx),
    lis s = Some l ∧
    ds ≡ₚ (map_to_list (dctxMap s)).*2 ∧
    trace_of (Close rangeOrder s) =
      [EvCancel] ++ (EvDctxClose <$> ds) ++ [EvListenerClose l] ++ [EvDoneClose].
Proof.
  intros ([l Hl] & Hf & Hd & Hc).
  exists l, ((rangeOrder (dctxMap s)).*2). split; [done|]. split.
  - by rewrite (rangeOrder_perm (dctxMap s)).
  - rewrite (Close_running s l Hl Hf Hd Hc). unfold trace_of. cbn [fst snd app].
    f_equal. f_equal. by rewrite <- list_fmap_compose.
Qed.

End CloseFacts.

(** ** [Run] and [setTLSConfig] *)

Lemma Run_isClosed (w : RunWorld) (s : Server) :
  isClosed (state_of (Run w s)) = isClosed s ∧
  doneComplete (state_of (Run w s)) = doneComplete s.
Proof.
  unfold Run, setTLSConfig. run_method.
  destruct (rw_listen w) as [l|e]; simpl; [|done].
  destruct (Spec_IsTLS (rw_svc w)); simpl; [|done].
  destruct (rw_getSecret w) as [c|e]; simpl; [done|].
  by destruct (IsNotFound e).
Qed.

(** [s.cancelFn] is assigned on the path of [Run] that returns nil, and on
    no other. *)
Lemma Run_cancelFn (w : RunWorld) (s : Server) :
  cancelFn (state_of (Run w s)) =
    match value_of (Run w s) with
    | None => Some cancelRunCtx
    | Some _ => cancelFn s
    end.
Proof.
  unfold Run, setTLSConfig. run_method.
  destruct (rw_listen w) as [l|e]; simpl; [|done].
  destruct (Spec_IsTLS (rw_svc w)); simpl; [|done].
  destruct (rw_getSecret w) as [c|e]; simpl; [done|].
  by destruct (IsNotFound e).
Qed.

(** A successful [Run] on a server that was not closed leaves it running. *)
Lemma Run_running (w : RunWorld) (s : Server) :
  doneComplete s = ChanOpen → isClosed s = false →
  value_of (Run w s) = None → running (state_of (Run w s)).
Proof.
  intros Hd Hc Hv. unfold running.
  destruct (Run_isClosed w s) as [-> ->]. rewrite Run_cancelFn, Hv.
  split_and!; [|by eexists|done|done].
  revert Hv. unfold Run, setTLSConfig. run_method.
  destruct (rw_listen w) as [l|e]; simpl; [|done].
  destruct (Spec_IsTLS (rw_svc w)); simpl; [|by eexists].
  destruct (rw_getSecret w) as [c|e]; simpl; [by eexists|].
  destruct (IsNotFound e); simpl; [by eexists|done].
Qed.

(** C7. [Run] returns an error exactly when [net.Listen] fails, or the
    Service requires TLS and the secret store fails with an error that is
    not a not-found.  The accept loop is started ([go s.serve(ctx)]) when
    [Run] returns nil and on no path that returns an error.  When the store
    answers not-found (the port being bound and TLS required), [Run]
    returns nil having bound the port, asked the store and started the
    accept loop, in that order; the server is running, and the certificate
    holder is empty. *)
Theorem Run_error_iff (w : RunWorld) (s : Server) :
  ((∃ e, value_of (Run w s) = Some e) ↔
     (∃ e, rw_listen w = Err e) ∨
     (Spec_IsTLS (rw_svc w) = true ∧
      ∃ e, rw_getSecret w = Err e ∧ IsNotFound e = false)) ∧
  countb isGoServe (trace_of (Run w s))
    = match value_of (Run w s) with None => 1 | Some _ => 0 end ∧
  (value_of (Run w s) = None → last (trace_of (Run w s)) = Some EvGoServe) ∧
  (∀ l e,
     rw_listen w = Ok l → Spec_IsTLS (rw_svc w) = true →
     rw_getSecret w = Err e → IsNotFound e = true →
     doneComplete s = ChanOpen → isClosed s = false →
     value_of (Run w s) = None ∧
     trace_of (Run w s)
       = [EvListen (RealPort (rw_svc w)); EvGetSecret; EvGoServe] ∧
     running (state_of (Run w s)) ∧
     lis (state_of (Run w s)) = Some l ∧
     crtMan_crt (state_of (Run w s)) = None ∧
     tlsCfgMan_tlsCfg (state_of (Run w s)) = Some clusterTLSConfig).
Proof.
  split_and!.
  - unfold Run, setTLSConfig. run_method.
    destruct (rw_listen w) as [l|e]; simpl.
    + destruct (Spec_IsTLS (rw_svc w)); simpl.
      * destruct (rw_getSecret w) as [c|e]; simpl.
        -- split; [by intros [? ?]|]. intros [[? ?]|[_ (? & ? & _)]]; done.
        -- destruct (IsNotFound e) eqn:He; simpl.
           ++ split; [by intros [? ?]|].
              intros [[? ?]|[_ (e' & He' & Hn)]]; [done|]. congruence.
           ++ split; [|by eexists]. intros _. right. split; [done|]. by exists e.
      * split; [by intros [? ?]|]. intros [[? ?]|[? _]]; done.
    + split; [|by eexists]. intros _. left. by exists e.
  - unfold Run, setTLSConfig. run_method.
    destruct (rw_listen w) as [l|e]; simpl; [|done].
    destruct (Spec_IsTLS (rw_svc w)); simpl; [|done].
    destruct (rw_getSecret w) as [c|e]; simpl; [done|].
    by destruct (IsNotFound e).
  - unfold Run, setTLSConfig. run_method.
    destruct (rw_listen w) as [l|e]; simpl; [|done].
    destruct (Spec_IsTLS (rw_svc w)); simpl; [|done].
    destruct (rw_getSecret w) as [c|e]; simpl; [done|].
    by destruct (IsNotFound e).
  - intros l e Hl Ht Hs Hn Hd Hc.
    assert (Hv : value_of (Run w s) = None).
    { unfold Run, setTLSConfig. run_method. rewrite Hl. simpl.
      rewrite Ht. simpl. rewrite Hs. simpl. by rewrite Hn. }
    split; [done|]. split.
    { unfold Run, setTLSConfig. run_method. rewrite Hl. simpl.
      rewrite Ht. simpl. rewrite Hs. simpl. by rewrite Hn. }
    split; [by apply Run_running|].
    unfold Run, setTLSConfig. run_method. rewrite Hl. simpl.
    rewrite Ht. simpl. rewrite Hs. simpl. by rewrite Hn.
Qed.

(** ** Rotation of the certificate *)

Lemma tlsHistory_app (a b : list tls_op) (s : Server) :
  tlsHistory (a ++ b) s =
    ((tlsHistory b (tlsHistory a s).1).1,
     (tlsHistory a s).2 ++ (tlsHistory b (tlsHistory a s).1).2).
Proof.
  revert s. induction a as [|[crt|] a IH]; intros s; simpl.
  - by destruct (tlsHistory b s).
  - apply IH.
  - rewrite IH. unfold state_of, clientHello. run_method.
    by destruct (tlsHistory a s) as [s1 r1].
Qed.

(** Neither a rotation nor a handshake replaces the configuration. *)
Lemma tlsHistory_tlsCfg (ops : list tls_op) (s : Server) :
  tlsCfgMan_tlsCfg (tlsHistory ops s).1 = tlsCfgMan_tlsCfg s.
Proof.
  revert s. induction ops as [|[crt|] ops IH]; intros s; simpl; [done| |].
  - by rewrite IH.
  - unfold clientHello. run_method.
    specialize (IH s). by destruct (tlsHistory ops s).
Qed.

Lemma tlsHistory_hellos (k : nat) (s : Server) (cfg : tlsConfig) :
  tlsCfgMan_tlsCfg s = Some cfg →
  tlsHistory (replicate k OpClientHello) s =
    (s, replicate k (Some (GetCertificate cfg (crtMan_crt s)))).
Proof.
  intros H. induction k as [|k IH]; simpl; [done|].
  unfold clientHello. run_method. rewrite H. simpl.
  unfold clientHello in IH. by rewrite IH.
Qed.

(** C5. Rotation.  In any history of rotations and handshakes on a server
    configured by [setTLSConfig], once [SetClusterCertificate(X)] has
    returned, every callback call up to the next rotation returns what
    [GetTLSCertificate] makes of [X]; the callback calls that came before
    returned what they return in the history without the rotation. *)
Theorem rotation_takes_effect (s : Server) (X : Secret)
    (before : list tls_op) (k : nat) :
  tlsCfgMan_tlsCfg s = Some clusterTLSConfig →
  (tlsHistory (before ++ OpSetClusterCertificate (Some X)
                 :: replicate k OpClientHello) s).2
  = (tlsHistory before s).2 ++ replicate k (Some (GetTLSCertificate X)).
Proof.
  intros Hcfg. rewrite tlsHistory_app. cbn [snd]. f_equal.
  cbn [tlsHistory]. unfold SetClusterCertificate. run_method.
  rewrite (tlsHistory_hellos k _ clusterTLSConfig); [done|].
  cbn [set_crt tlsCfgMan_tlsCfg]. by rewrite tlsHistory_tlsCfg.
Qed.

(** C6. With an empty holder the callback returns no certificate and no
    error (and changes nothing). *)
Theorem callback_without_certificate (s : Server) :
  tlsCfgMan_tlsCfg s = Some clusterTLSConfig →
  crtMan_crt s = None →
  clientHello s = (s, [], Some (None, None)).
Proof.
  intros Hcfg Hcrt. unfold clientHello. run_method. by rewrite Hcfg, Hcrt.
Qed.

(** ** [Close] on a server that never ran *)

Section CloseBeforeRun.

Variable rangeOrder : gmap string dctx → list (string * dctx).

Lemma RunCalls_failed (ws : list RunWorld) (s : Server) :
  Forall is_Some (RunCalls ws s).2 →
  cancelFn (RunCalls ws s).1 = cancelFn s ∧
  isClosed (RunCalls ws s).1 = isClosed s.
Proof.
  revert s. induction ws as [|w ws IH]; intros s; simpl; [done|].
  destruct (RunCalls ws (state_of (Run w s))) as [s' es] eqn:E. cbn [fst snd].
  intros H. apply Forall_cons in H as [[e He] Hes].
  specialize (IH (state_of (Run w s))). rewrite E in IH. cbn [fst snd] in IH.
  destruct (IH Hes) as [-> ->].
  rewrite Run_cancelFn, He. by destruct (Run_isClosed w s) as [-> _].
Qed.

(** C10. [s.cancelFn] is nil after [New] and stays nil as long as every call
    of [Run] has returned an error.  [Close] on such a server sets
    [isClosed], calls the nil function and panics, before any step of the
    teardown. *)
Theorem Close_before_Run_panics (ws : list RunWorld) :
  Forall is_Some (RunCalls ws newServer).2 →
  Close rangeOrder (RunCalls ws newServer).1 =
    (set_isClosed true (RunCalls ws newServer).1, [], Panicked PanicNilFunc).
Proof.
  intros H. destruct (RunCalls_failed ws newServer H) as [Hf Hc].
  unfold Close. run_method. rewrite Hc. simpl. by rewrite Hf.
Qed.

End CloseBeforeRun.

(** ** The accept loop *)

(** A round that does not make [serve] return is followed by the rest. *)
Lemma serve_cons_accepting (a : accept_round) (rounds : list accept_round) t :
  serveRound a = (t, LoopAccepting) →
  serve (a :: rounds) = (t ++ (serve rounds).1, (serve rounds).2).
Proof. intros H. simpl. rewrite H. by destruct (serve rounds). Qed.

Lemma serve_returned (rounds : list accept_round) :
  (serve rounds).2 = LoopReturned →
  ∃ a e, a ∈ rounds ∧ ar_accept a = AcceptErr e ∧
         IsOpErrorTimeout e = false ∧ ar_ctxDone a = true.
Proof.
  induction rounds as [|a rounds IH]; simpl; [done|].
  destruct (serveRound a) as [t st] eqn:E. destruct st.
  - destruct (serve rounds) as [t' st']. cbn [snd] in *. intros H.
    destruct (IH H) as (a' & e & Hin & ?). exists a', e. split; [|done].
    by apply list_elem_of_further.
  - intros _. unfold serveRound in E.
    destruct (ar_accept a) as [c|e] eqn:Ea; [done|].
    destruct (IsOpErrorTimeout e) eqn:Et; [done|].
    destruct (ar_ctxDone a) eqn:Ed; [|done].
    exists a, e. split; [apply list_elem_of_here|done].
Qed.

(** C8. The accept loop and accept errors.  [serve] returns only in a round
    where [Accept] failed with an error that is not a timeout while the
    context was already done.  On a timeout it sleeps 100ms and accepts
    again, whatever the context; on another error it returns if the context
    is done and otherwise sleeps 100ms and accepts again.  Hence after any
    [es] of accept errors under a live context, a connection that [Accept]
    then returns is dispatched to [handleConn], and the loop goes on. *)
Theorem serve_resilient :
  (∀ rounds, (serve rounds).2 = LoopReturned →
     ∃ a e, a ∈ rounds ∧ ar_accept a = AcceptErr e ∧
            IsOpErrorTimeout e = false ∧ ar_ctxDone a = true) ∧
  (∀ e done, IsOpErrorTimeout e = true →
     serveRound {| ar_accept := AcceptErr e; ar_ctxDone := done |}
       = ([EvAccept; EvSleep 100], LoopAccepting)) ∧
  (∀ e, IsOpErrorTimeout e = false →
     serveRound {| ar_accept := AcceptErr e; ar_ctxDone := true |}
       = ([EvAccept], LoopReturned) ∧
     serveRound {| ar_accept := AcceptErr e; ar_ctxDone := false |}
       = ([EvAccept; EvSleep 100], LoopAccepting)) ∧
  (∀ (es : list error) (c : Conn) (done : bool),
     serve (((λ e, {| ar_accept := AcceptErr e; ar_ctxDone := false |}) <$> es)
              ++ [{| ar_accept := AcceptConn c; ar_ctxDone := done |}])
     = (concat (replicate (length es) [EvAccept; EvSleep 100])
          ++ [EvAccept; EvGoHandleConn c],
        LoopAccepting)).
Proof.
  split_and!.
  - apply serve_returned.
  - intros e done He. unfold serveRound. simpl. by rewrite He.
  - intros e He. unfold serveRound. simpl. by rewrite He.
  - intros es c done. induction es as [|e es IH]; [done|].
    cbn [fmap list_fmap app length replicate concat].
    rewrite (serve_cons_accepting _ _ [EvAccept; EvSleep 100]).
    + by rewrite IH.
    + unfold serveRound. simpl. by destruct (IsOpErrorTimeout e).
Qed.

(** ** [handleConn] *)

(** The policy call returned an error: the connection is closed and nothing
    else happens. *)
Lemma handleConn_policy_error (w : ConnWorld) (c : Conn) (s : Server) svc e :
  cw_svc w = Some svc → cw_auth w = Err e →
  handleConn w c s = (s, [EvAuthenticateAndAuthorize c; EvConnClose c], tt).
Proof. intros Hs Ha. unfold handleConn. by rewrite Hs, Ha. Qed.

(** The whole of [handleConn] on a connection that passes the test of the
    gate and whose handshake and upstream connection succeed. *)
Lemma handleConn_admitted (w : ConnWorld) (c : Conn) (s : Server) svc r dc :
  cw_svc w = Some svc → cw_auth w = Ok r →
  IsAuthenticated r && negb (IsAuthorized r) = false →
  cw_downstreamConn w = Ok dc → cw_connect w = None →
  let d := newDctx w c (RequestContext r) in
  handleConn w c s =
    (set_dctxMap (delete (id d) (cw_others w (<[id d := d]> (dctxMap s)))) s,
     [EvAuthenticateAndAuthorize c; EvGetDownstreamConn c; EvConnect d;
      EvEmitAccessLog (sessionStart w r);
      EvRegistryInsert (id d); EvAtRequestStart;
      EvServe d (cw_serve w); EvAtRequestEnd (createdAt d);
      EvRegistryDelete (id d);
      EvEmitAccessLog (sessionEnd w r);
      EvDctxClose d],
     tt).
Proof.
  intros Hs Ha Hg Hd Hc d. unfold handleConn. rewrite Hs, Ha.
  run_method. rewrite Hg. simpl. rewrite Hd. simpl. by rewrite Hc.
Qed.

(** C1, on the code.  A verdict that is not authenticated, returned with a
    nil error, does not stop [handleConn]: the test of the gate is
    [IsAuthenticated && !IsAuthorized], which is false for it.  When the
    handshake and the upstream connection succeed, the connection is never
    closed by the handler; it gets a session-start and a session-end entry,
    both marked authenticated and authorized, and an entry in the registry
    while it is served. *)
Theorem handleConn_unauthenticated_verdict
    (w : ConnWorld) (c : Conn) (s : Server) svc r dc :
  cw_svc w = Some svc → cw_auth w = Ok r →
  IsAuthenticated r = false →
  cw_downstreamConn w = Ok dc → cw_connect w = None →
  let d := newDctx w c (RequestContext r) in
  let t := trace_of (handleConn w c s) in
  t = [EvAuthenticateAndAuthorize c; EvGetDownstreamConn c; EvConnect d;
       EvEmitAccessLog (sessionStart w r);
       EvRegistryInsert (id d); EvAtRequestStart;
       EvServe d (cw_serve w); EvAtRequestEnd (createdAt d);
       EvRegistryDelete (id d);
       EvEmitAccessLog (sessionEnd w r);
       EvDctxClose d] ∧
  countb isConnClose t = 0 ∧
  countb isEmitAccessLog t = 2 ∧
  countb isRegistryInsert t = 1.
Proof.
  intros Hs Ha Hn Hd Hc d t. subst t.
  rewrite (handleConn_admitted w c s svc r dc Hs Ha); [|by rewrite Hn|done|done].
  done.
Qed.

(** C2. Authenticated but not authorized: [handleConn] makes the policy
    call, emits one entry (session-start, authenticated, not authorized,
    with the request context and the reason of the decision, no connection
    id), closes the connection, and that is all: no upstream connection, no
    insertion, the server unchanged. *)
Theorem handleConn_unauthorized
    (w : ConnWorld) (c : Conn) (s : Server) svc r :
  cw_svc w = Some svc → cw_auth w = Ok r →
  IsAuthenticated r = true → IsAuthorized r = false →
  let t := trace_of (handleConn w c s) in
  t = [EvAuthenticateAndAuthorize c;
       EvEmitAccessLog
         {| le_Type := SESSION_START;
            le_StartTime := cw_now w;
            le_IsAuthenticated := true;
            le_IsAuthorized := false;
            le_ReqCtx := RequestContext r;
            le_ConnectionID := "";
            le_Reason := AuthorizationDecisionReason r |};
       EvConnClose c] ∧
  countb isEmitAccessLog t = 1 ∧
  countb isConnect t = 0 ∧
  countb isRegistryInsert t = 0 ∧
  state_of (handleConn w c s) = s.
Proof.
  intros Hs Ha Hn Hz t. subst t. unfold handleConn. rewrite Hs, Ha.
  run_method. rewrite Hn, Hz. done.
Qed.

(** C9. An admitted connection.  The insertion in the registry comes before
    [dctx.serve] is called; the removal comes after [dctx.serve] has come
    back, however it came back ([cw_serve w] is any of the three), and the
    session-end entry is emitted after the removal.  When [handleConn]
    returns, the registry has no entry under the id of the session. *)
Theorem handleConn_registry_order
    (w : ConnWorld) (c : Conn) (s : Server) svc r dc :
  cw_svc w = Some svc → cw_auth w = Ok r →
  IsAuthenticated r && negb (IsAuthorized r) = false →
  cw_downstreamConn w = Ok dc → cw_connect w = None →
  let d := newDctx w c (RequestContext r) in
  (∃ pre,
     trace_of (handleConn w c s) =
       pre ++ [EvRegistryInsert (id d)] ++ [EvAtRequestStart]
           ++ [EvServe d (cw_serve w)] ++ [EvAtRequestEnd (createdAt d)]
           ++ [EvRegistryDelete (id d)]
           ++ [EvEmitAccessLog (sessionEnd w r)] ++ [EvDctxClose d] ∧
     countb isRegistryInsert pre = 0) ∧
  dctxMap (state_of (handleConn w c s)) =
    delete (id d) (cw_others w (<[id d := d]> (dctxMap s))) ∧
  dctxMap (state_of (handleConn w c s)) !! id d = None.
Proof.
  intros Hs Ha Hg Hd Hc d.
  rewrite (handleConn_admitted w c s svc r dc Hs Ha Hg Hd Hc).
  fold d. unfold trace_of, state_of. cbn [fst snd set_dctxMap dctxMap].
  split_and!.
  - by eexists [_; _; _; _].
  - done.
  - apply lookup_delete_eq.
Qed.

(** * Further properties of the code *)

(** ** [handleConn], over all its paths *)

(** A record is the record of its fields. *)
Lemma set_dctxMap_same (s : Server) : set_dctxMap (dctxMap s) s = s.
Proof. by destruct s. Qed.

(** The five ways [handleConn] can go, with the whole result on each. *)
Lemma handleConn_paths (w : ConnWorld) (c : Conn) (s : Server) :
  (cw_svc w = None ∧ handleConn w c s = (s, [EvConnClose c], tt)) ∨
  (∃ e, cw_auth w = Err e ∧ is_Some (cw_svc w) ∧
     handleConn w c s = (s, [EvAuthenticateAndAuthorize c; EvConnClose c], tt)) ∨
  (∃ r, cw_auth w = Ok r ∧ is_Some (cw_svc w) ∧
     IsAuthenticated r && negb (IsAuthorized r) = true ∧
     handleConn w c s =
       (s, [EvAuthenticateAndAuthorize c; EvEmitAccessLog (sessionDenied w r);
            EvConnClose c], tt)) ∨
  (∃ r e, cw_auth w = Ok r ∧ is_Some (cw_svc w) ∧
     IsAuthenticated r && negb (IsAuthorized r) = false ∧
     cw_downstreamConn w = Err e ∧
     handleConn w c s =
       (s, [EvAuthenticateAndAuthorize c; EvGetDownstreamConn c; EvConnClose c],
        tt)) ∨
  (∃ r dc e, cw_auth w = Ok r ∧ is_Some (cw_svc w) ∧
     IsAuthenticated r && negb (IsAuthorized r) = false ∧
     cw_downstreamConn w = Ok dc ∧ cw_connect w = Some e ∧
     handleConn w c s =
       (s, [EvAuthenticateAndAuthorize c; EvGetDownstreamConn c;
            EvConnect (newDctx w c (RequestContext r));
            EvDownstreamConnClose dc; EvConnClose c], tt)) ∨
  (∃ r dc, cw_auth w = Ok r ∧ is_Some (cw_svc w) ∧
     IsAuthenticated r && negb (IsAuthorized r) = false ∧
     cw_downstreamConn w = Ok dc ∧ cw_connect w = None ∧
     let d := newDctx w c (RequestContext r) in
     handleConn w c s =
       (set_dctxMap (delete (id d) (cw_others w (<[id d := d]> (dctxMap s)))) s,
        [EvAuthenticateAndAuthorize c; EvGetDownstreamConn c; EvConnect d;
         EvEmitAccessLog (sessionStart w r);
         EvRegistryInsert (id d); EvAtRequestStart;
         EvServe d (cw_serve w); EvAtRequestEnd (createdAt d);
         EvRegistryDelete (id d);
         EvEmitAccessLog (sessionEnd w r);
         EvDctxClose d], tt)).
Proof.
  destruct (cw_svc w) as [svc|] eqn:Hs.
  2:{ left. split; [done|]. unfold handleConn. by rewrite Hs. }
  right. destruct (cw_auth w) as [r|e] eqn:Ha.
  2:{ left. exists e. split_and!; [done|by eexists|].
      by apply (handleConn_policy_error w c s svc e). }
  right. destruct (IsAuthenticated r && negb (IsAuthorized r)) eqn:Hg.
  { left. exists r. split_and!; [done|by eexists|done|].
    unfold handleConn. rewrite Hs, Ha. run_method. by rewrite Hg. }
  right. destruct (cw_downstreamConn w) as [dc|e] eqn:Hd.
  2:{ left. exists r, e. split_and!; [done|by eexists|done|done|].
      unfold handleConn. rewrite Hs, Ha. run_method. rewrite Hg. simpl.
      by rewrite Hd. }
  right. destruct (cw_connect w) as [e|] eqn:Hc.
  { left. exists r, dc, e. split_and!; [done|by eexists|done|done|done|].
    unfold handleConn. rewrite Hs, Ha. run_method. rewrite Hg. simpl.
    rewrite Hd. simpl. by rewrite Hc. }
  right. exists r, dc. split_and!; [done|by eexists|done|done|done|].
  by apply (handleConn_admitted w c s svc r dc).
Qed.

(** X1. No path of [handleConn] returns without a close call, and the
    close calls it makes are these.  On every path that does not register
    the session the last call is [c.Close()], made once, with no
    [dctx.close()]; before it the handler calls [downstreamConn.Close()]
    at most once, and only when the upstream connection failed.  On the
    path that served the session the last call is the deferred
    [dctx.close()], and the handler itself calls neither [c.Close()] nor
    [downstreamConn.Close()]. *)
Theorem handleConn_ends_by_closing (w : ConnWorld) (c : Conn) (s : Server) :
  let t := trace_of (handleConn w c s) in
  (last t = Some (EvConnClose c) ∧
   countb isConnClose t = 1 ∧ countb isDctxClose t = 0 ∧
   countb isRegistryInsert t = 0 ∧
   countb isDownstreamConnClose t ≤ 1 ∧
   (0 < countb isDownstreamConnClose t →
    ∃ dc e pre, cw_downstreamConn w = Ok dc ∧ cw_connect w = Some e ∧
                t = pre ++ [EvDownstreamConnClose dc; EvConnClose c])) ∨
  (∃ r, cw_auth w = Ok r ∧
        last t = Some (EvDctxClose (newDctx w c (RequestContext r))) ∧
        countb isDctxClose t = 1 ∧ countb isConnClose t = 0 ∧
        countb isDownstreamConnClose t = 0 ∧
        countb isRegistryInsert t = 1).
Proof.
  destruct (handleConn_paths w c s)
    as [[_ H]|[(e & _ & _ & H)|[(r & _ & _ & _ & H)|[(r & e & _ & _ & _ & _ & H)
       |[(r & dc & e & _ & _ & _ & Hd & Hc & H)|(r & dc & Ha & _ & _ & _ & _ & H)]]]]];
    cbv zeta in *; rewrite H; unfold trace_of; cbn [fst snd].
  - left. split_and!; try done; cbn; lia.
  - left. split_and!; try done; cbn; lia.
  - left. split_and!; try done; cbn; lia.
  - left. split_and!; try done; cbn; lia.
  - left. split_and!; try done; try (cbn; lia). intros _.
    exists dc, e. by eexists [_; _; _].
  - right. by exists r.
Qed.

(** X2. [handleConn] writes nothing of the server but the registry, and it
    writes the registry only on the path that inserts the session. *)
Theorem handleConn_frame (w : ConnWorld) (c : Conn) (s : Server) :
  let s' := state_of (handleConn w c s) in
  s' = set_dctxMap (dctxMap s') s ∧
  (countb isRegistryInsert (trace_of (handleConn w c s)) = 0 → s' = s).
Proof.
  destruct (handleConn_paths w c s)
    as [[_ H]|[(e & _ & _ & H)|[(r & _ & _ & _ & H)|[(r & e & _ & _ & _ & _ & H)
       |[(r & dc & e & _ & _ & _ & _ & _ & H)|(r & dc & Ha & _ & _ & _ & _ & H)]]]]];
    cbv zeta in *; rewrite H; unfold trace_of, state_of; cbn [fst snd];
    try (split; [by rewrite set_dctxMap_same|done]).
  split; [done|]. cbn. done.
Qed.

(** X3. The access log of one connection is one of three: nothing; the one
    entry of an authenticated connection that was not authorized; or a
    session-start followed by a session-end that carry the same connection
    id, start time and request context.  The pair is emitted exactly when
    the session was inserted in the registry. *)
Theorem handleConn_log_entries (w : ConnWorld) (c : Conn) (s : Server) :
  let t := trace_of (handleConn w c s) in
  (logEntries t = [] ∧ countb isRegistryInsert t = 0) ∨
  (∃ r, cw_auth w = Ok r ∧ logEntries t = [sessionDenied w r] ∧
        countb isRegistryInsert t = 0) ∨
  (∃ r, cw_auth w = Ok r ∧
        logEntries t = [sessionStart w r; sessionEnd w r] ∧
        le_ConnectionID (sessionStart w r) = le_ConnectionID (sessionEnd w r) ∧
        le_StartTime (sessionStart w r) = le_StartTime (sessionEnd w r) ∧
        le_ReqCtx (sessionStart w r) = le_ReqCtx (sessionEnd w r) ∧
        countb isRegistryInsert t = 1).
Proof.
  destruct (handleConn_paths w c s)
    as [[_ H]|[(e & _ & _ & H)|[(r & Ha & _ & _ & H)|[(r & e & _ & _ & _ & _ & H)
       |[(r & dc & e & _ & _ & _ & _ & _ & H)|(r & dc & Ha & _ & _ & _ & _ & H)]]]]];
    cbv zeta in *; rewrite H; unfold trace_of; cbn [fst snd].
  - by left.
  - by left.
  - right. left. by exists r.
  - by left.
  - by left.
  - right. right. by exists r.
Qed.

(** X4. Nothing downstream of the gate happens without the verdict: when
    the trace has a handshake, an upstream connection, an insertion or a
    serving, the policy call returned without error a verdict for which
    [IsAuthenticated && !IsAuthorized] is false, and that call was the
    first thing [handleConn] did and was made once. *)
Theorem handleConn_gate_first (w : ConnWorld) (c : Conn) (s : Server) :
  let t := trace_of (handleConn w c s) in
  0 < countb isPastGate t →
  ∃ r rest,
    cw_auth w = Ok r ∧
    IsAuthenticated r && negb (IsAuthorized r) = false ∧
    t = EvAuthenticateAndAuthorize c :: rest ∧
    countb isAuthenticateAndAuthorize rest = 0.
Proof.
  destruct (handleConn_paths w c s)
    as [[_ H]|[(e & _ & _ & H)|[(r & Ha & _ & _ & H)|[(r & e & Ha & _ & Hg & _ & H)
       |[(r & dc & e & Ha & _ & Hg & _ & _ & H)|(r & dc & Ha & _ & Hg & _ & _ & H)]]]]];
    cbv zeta in *; rewrite H; unfold trace_of; cbn [fst snd]; cbn; intros Hpos;
    try lia; exists r; eexists; split_and!; try done.
Qed.

(** X5. A failure between the gate and the registration (the downstream
    handshake, or the upstream connection) leaves no access-log entry, not
    even a session-start, and no change in the server; the connection is
    closed, after the downstream protocol connection when there is one. *)
Theorem handleConn_setup_failure
    (w : ConnWorld) (c : Conn) (s : Server) svc r :
  cw_svc w = Some svc → cw_auth w = Ok r →
  IsAuthenticated r && negb (IsAuthorized r) = false →
  (∃ e, cw_downstreamConn w = Err e) ∨
  (∃ dc e, cw_downstreamConn w = Ok dc ∧ cw_connect w = Some e) →
  let t := trace_of (handleConn w c s) in
  logEntries t = [] ∧
  state_of (handleConn w c s) = s ∧
  countb isRegistryInsert t = 0 ∧
  countb isConnClose t = 1 ∧
  last t = Some (EvConnClose c) ∧
  (∀ dc, cw_downstreamConn w = Ok dc →
     ∃ pre, t = pre ++ [EvDownstreamConnClose dc; EvConnClose c]).
Proof.
  intros Hs Ha Hg Hfail t. subst t. unfold handleConn. rewrite Hs, Ha.
  run_method. rewrite Hg. simpl.
  destruct Hfail as [[e He]|(dc & e & Hd & Hc)].
  - rewrite He. simpl. by split_and!.
  - rewrite Hd. simpl. rewrite Hc. simpl. split_and!; try done.
    intros dc' Hdc. assert (dc' = dc) as -> by congruence.
    by eexists [_; _; _].
Qed.

(** X6. The policy client is called at most once per connection, and it is
    called exactly when the cache holds the Service; without a Service the
    connection is closed and nothing else is done. *)
Theorem handleConn_policy_calls (w : ConnWorld) (c : Conn) (s : Server) :
  countb isAuthenticateAndAuthorize (trace_of (handleConn w c s))
    = match cw_svc w with Some _ => 1 | None => 0 end ∧
  (cw_svc w = None → handleConn w c s = (s, [EvConnClose c], tt)).
Proof.
  destruct (handleConn_paths w c s)
    as [[Hs H]|[(e & _ & [? Hs] & H)|[(r & _ & [? Hs] & _ & H)
       |[(r & e & _ & [? Hs] & _ & _ & H)
       |[(r & dc & e & _ & [? Hs] & _ & _ & _ & H)
        |(r & dc & _ & [? Hs] & _ & _ & _ & H)]]]]];
    cbv zeta in *; rewrite H, Hs; unfold trace_of; cbn [fst snd]; done.
Qed.

(** X7. Insertion and removal cancel out.  When no other goroutine touches
    the registry while the session is served, [handleConn] leaves every
    other key of the registry as it was, and if the id of the session was
    not in use it leaves the whole server as it found it. *)
Theorem handleConn_registry_round_trip
    (w : ConnWorld) (c : Conn) (s : Server) :
  (∀ m, cw_others w m = m) →
  let s' := state_of (handleConn w c s) in
  (∀ k, k ≠ cw_id w → dctxMap s' !! k = dctxMap s !! k) ∧
  (dctxMap s !! cw_id w = None → s' = s).
Proof.
  intros Ho.
  destruct (handleConn_paths w c s)
    as [[_ H]|[(e & _ & _ & H)|[(r & _ & _ & _ & H)|[(r & e & _ & _ & _ & _ & H)
       |[(r & dc & e & _ & _ & _ & _ & _ & H)|(r & dc & Ha & _ & _ & _ & _ & H)]]]]];
    cbv zeta in *; rewrite H; unfold state_of; cbn [fst snd]; try done.
  rewrite Ho. cbn [newDctx id set_dctxMap dctxMap]. split.
  - intros k Hk. by rewrite lookup_delete_ne, lookup_insert_ne.
  - intros Hfresh. rewrite delete_insert_id by done. apply set_dctxMap_same.
Qed.

(** ** [Run], [Close] and their composition *)

Lemma Run_dctxMap (w : RunWorld) (s : Server) :
  dctxMap (state_of (Run w s)) = dctxMap s.
Proof.
  unfold Run, setTLSConfig. run_method.
  destruct (rw_listen w) as [l|e]; simpl; [|done].
  destruct (Spec_IsTLS (rw_svc w)); simpl; [|done].
  destruct (rw_getSecret w) as [c|e]; simpl; [done|].
  by destruct (IsNotFound e).
Qed.

(** When [Run] returns nil, the listener it holds is the one it bound. *)
Lemma Run_ok_lis (w : RunWorld) (s : Server) :
  value_of (Run w s) = None →
  ∃ l, rw_listen w = Ok l ∧ lis (state_of (Run w s)) = Some l.
Proof.
  unfold Run, setTLSConfig. run_method.
  destruct (rw_listen w) as [l|e]; simpl; [|done].
  destruct (Spec_IsTLS (rw_svc w)); simpl; [|by exists l].
  destruct (rw_getSecret w) as [c|e]; simpl; [by exists l|].
  destruct (IsNotFound e); simpl; [by exists l|done].
Qed.

(** X8. For a Service that does not require TLS, [Run] never asks the
    secret store, leaves the certificate holder and the TLS configuration
    as they were, and fails only if the port cannot be bound. *)
Theorem Run_plain_service (w : RunWorld) (s : Server) :
  Spec_IsTLS (rw_svc w) = false →
  countb isGetSecret (trace_of (Run w s)) = 0 ∧
  crtMan_crt (state_of (Run w s)) = crtMan_crt s ∧
  tlsCfgMan_tlsCfg (state_of (Run w s)) = tlsCfgMan_tlsCfg s ∧
  (value_of (Run w s) = None ↔ ∃ l, rw_listen w = Ok l).
Proof.
  intros Ht. unfold Run. run_method.
  destruct (rw_listen w) as [l|e]; simpl.
  - rewrite Ht. simpl. split_and!; try done. split; [by exists l|done].
  - split_and!; try done. split; [done|by intros [? ?]].
Qed.

(** X9. When the port is bound and the secret store then fails with an
    error that is not a not-found, [Run] returns that error and stops
    there: the listener stays in [s.lis] and is not closed, the accept loop
    is not started, and nothing else of the server is written. *)
Theorem Run_store_failure_keeps_listener
    (w : RunWorld) (s : Server) (l : Listener) (e : error) :
  rw_listen w = Ok l → Spec_IsTLS (rw_svc w) = true →
  rw_getSecret w = Err e → IsNotFound e = false →
  Run w s = (set_lis (Some l) s,
             [EvListen (RealPort (rw_svc w)); EvGetSecret], Some e) ∧
  countb isListenerClose (trace_of (Run w s)) = 0.
Proof.
  intros Hl Ht Hs Hn. unfold Run, setTLSConfig. run_method.
  rewrite Hl. simpl. rewrite Ht. simpl. rewrite Hs. simpl. by rewrite Hn.
Qed.

(** X10. From the store to the handshake.  When [Run] finds the cluster
    certificate in the secret store, the first callback call after it
    returns what [GetTLSCertificate] makes of that secret. *)
Theorem Run_installs_store_certificate
    (w : RunWorld) (s : Server) (l : Listener) (crt : Secret) :
  rw_listen w = Ok l → Spec_IsTLS (rw_svc w) = true →
  rw_getSecret w = Ok crt →
  value_of (Run w s) = None ∧
  value_of (clientHello (state_of (Run w s))) = Some (GetTLSCertificate crt).
Proof.
  intros Hl Ht Hs. unfold Run, setTLSConfig, clientHello. run_method.
  rewrite Hl. simpl. rewrite Ht. simpl. by rewrite Hs.
Qed.

Section RunAndClose.

Variable rangeOrder : gmap string dctx → list (string * dctx).
Hypothesis rangeOrder_perm : ∀ m, rangeOrder m ≡ₚ map_to_list m.

(** The effective call of [Close], whether [s.lis] is nil or not. *)
Lemma Close_open (s : Server) :
  is_Some (cancelFn s) → doneComplete s = ChanOpen → isClosed s = false →
  Close rangeOrder s =
    (set_doneComplete ChanClosed (set_isClosed true s),
     EvCancel :: ((λ kd, EvDctxClose kd.2) <$> rangeOrder (dctxMap s))
       ++ match lis s with Some l => [EvListenerClose l] | None => [] end
       ++ [EvDoneClose],
     Returned None).
Proof.
  intros [f Hf] Hd Hc. unfold Close. run_method.
  rewrite Hc. simpl. rewrite Hf. simpl.
  rewrite (for_range_call _ _ (λ kd, EvDctxClose kd.2)); [|done].
  simpl. destruct (lis s) as [l|]; simpl; by rewrite Hd.
Qed.

(** X11. [New], [Run], [Close].  On a fresh server on which [Run] returned
    nil, [Close] returns nil, and what it does is: cancel the context,
    close the listener that [Run] bound, close the completion channel. *)
Theorem Run_then_Close (w : RunWorld) :
  value_of (Run w newServer) = None →
  ∃ l, rw_listen w = Ok l ∧
       trace_of (Close rangeOrder (state_of (Run w newServer)))
         = [EvCancel; EvListenerClose l; EvDoneClose] ∧
       value_of (Close rangeOrder (state_of (Run w newServer)))
         = Returned None ∧
       doneComplete (state_of (Close rangeOrder (state_of (Run w newServer))))
         = ChanClosed.
Proof.
  intros Hv. destruct (Run_ok_lis w newServer Hv) as (l & Hl & Hlis).
  exists l. split; [done|].
  destruct (Run_running w newServer eq_refl eq_refl Hv) as (_ & Hf & Hd & Hc).
  rewrite (Close_open _ Hf Hd Hc), Hlis, Run_dctxMap.
  assert (rangeOrder (dctxMap newServer) = []) as ->.
  { apply Permutation_nil_r. rewrite (rangeOrder_perm _).
    unfold newServer. cbn [dctxMap]. by rewrite map_to_list_empty. }
  done.
Qed.

(** X12. A closed server stays closed.  [Run] does not reset [isClosed]:
    on a server that was closed and is run again, [Close] returns nil
    without cancelling the new context or closing the new listener. *)
Theorem Close_after_rerun_does_nothing (w : RunWorld) (s : Server) :
  isClosed s = true →
  Close rangeOrder (state_of (Run w s)) = (state_of (Run w s), [], Returned None).
Proof.
  intros Hc. apply Close_closed. by destruct (Run_isClosed w s) as [-> _].
Qed.

(** X13. [isClosed] is set before [s.cancelFn] is called.  So on a server
    that never ran, the first [Close] panics and every later one returns
    nil doing nothing: the completion channel is never closed. *)
Theorem Close_panic_then_nothing (s : Server) (n : nat) :
  cancelFn s = None → isClosed s = false →
  CloseCalls rangeOrder (S n) s =
    (set_isClosed true s,
     ([], Panicked PanicNilFunc) :: replicate n ([], Returned None)) ∧
  doneComplete (CloseCalls rangeOrder (S n) s).1 = doneComplete s.
Proof.
  intros Hf Hc.
  assert (H1 : Close rangeOrder s = (set_isClosed true s, [], Panicked PanicNilFunc)).
  { unfold Close. run_method. rewrite Hc. simpl. by rewrite Hf. }
  cbn [CloseCalls]. rewrite H1.
  by rewrite (CloseCalls_closed rangeOrder n (set_isClosed true s) eq_refl).
Qed.

(** X14. What [Close] never writes.  On any server and however it ends, a
    call of [Close] leaves the listener field, the cancel function, the
    certificate holder, the TLS configuration and the registry as they
    were (sessions are closed, not removed), and leaves [isClosed] set. *)
Theorem Close_frame (s : Server) :
  let s' := state_of (Close rangeOrder s) in
  lis s' = lis s ∧ cancelFn s' = cancelFn s ∧ dctxMap s' = dctxMap s ∧
  crtMan_crt s' = crtMan_crt s ∧ tlsCfgMan_tlsCfg s' = tlsCfgMan_tlsCfg s ∧
  isClosed s' = true.
Proof.
  destruct s as [l f d m c crt cfg].
  unfold Close. run_method.
  destruct c; [done|]. destruct f as [f|]; [|done]. simpl.
  rewrite (for_range_call _ _ (λ kd, EvDctxClose kd.2)); [|done].
  by destruct l, d.
Qed.

(** X15. [Run] assigns [s.lis] before it looks at the error of
    [net.Listen].  On a running server, a further [Run] that cannot bind
    sets [s.lis] to nil; [Close] then performs the teardown and returns
    nil, but closes no listener. *)
Theorem Run_bind_failure_drops_listener
    (w : RunWorld) (s : Server) (e : error) :
  running s → rw_listen w = Err e →
  Run w s = (set_lis None s, [EvListen (RealPort (rw_svc w))], Some e) ∧
  value_of (Close rangeOrder (state_of (Run w s))) = Returned None ∧
  countb isCancel (trace_of (Close rangeOrder (state_of (Run w s)))) = 1 ∧
  countb isListenerClose (trace_of (Close rangeOrder (state_of (Run w s)))) = 0.
Proof.
  intros (_ & Hf & Hd & Hc) Hl.
  assert (HR : Run w s = (set_lis None s, [EvListen (RealPort (rw_svc w))], Some e)).
  { unfold Run. run_method. by rewrite Hl. }
  rewrite HR. unfold state_of. cbn [fst].
  rewrite (Close_open (set_lis None s) Hf Hd Hc).
  unfold trace_of, value_of. cbn [fst snd lis set_lis dctxMap app].
  split_and!; try done.
  - cbn [countb isCancel]. rewrite countb_app. rewrite countb_none; [done|].
    apply Forall_forall. intros ev Hev.
    by apply list_elem_of_fmap in Hev as (kd & -> & _).
  - cbn [countb isListenerClose]. rewrite countb_app. rewrite countb_none; [done|].
    apply Forall_forall. intros ev Hev.
    by apply list_elem_of_fmap in Hev as (kd & -> & _).
Qed.

End RunAndClose.

(** ** The accept loop, round after round *)

(** X17. No accepted connection is dropped, duplicated or reordered: the
    connections handed to [handleConn] goroutines are, in order, a prefix
    of the connections [Accept] returned, and all of them as long as
    [serve] has not returned. *)
Theorem serve_dispatches_accepted (rounds : list accept_round) :
  dispatchedConns (serve rounds).1 `prefix_of` acceptedConns rounds ∧
  ((serve rounds).2 = LoopAccepting →
   dispatchedConns (serve rounds).1 = acceptedConns rounds).
Proof.
  induction rounds as [|a rounds [IHp IHe]]; simpl; [done|].
  unfold serveRound, acceptedConns. cbn [omap list_omap].
  fold (acceptedConns rounds).
  destruct (ar_accept a) as [c|e].
  - destruct (serve rounds) as [t st]. cbn [fst snd] in *.
    unfold dispatchedConns in *. cbn [app omap list_omap]. split.
    + by apply prefix_cons.
    + intros H. by rewrite (IHe H).
  - destruct (IsOpErrorTimeout e).
    + destruct (serve rounds) as [t st]. cbn [fst snd] in *. done.
    + destruct (ar_ctxDone a).
      * cbn [fst snd]. split; [apply prefix_nil|done].
      * destruct (serve rounds) as [t st]. cbn [fst snd] in *. done.
Qed.

(** X18. No busy loop.  As long as [serve] has not returned, it has called
    [Accept] once per round and slept once per failed [Accept], each time
    for 100ms; it never sleeps after a connection. *)
Theorem serve_accepts_and_sleeps (rounds : list accept_round) :
  (serve rounds).2 = LoopAccepting →
  countb isAccept (serve rounds).1 = length rounds ∧
  countb isSleep (serve rounds).1 = countb isAcceptErr rounds ∧
  countb isSleep100 (serve rounds).1 = countb isSleep (serve rounds).1.
Proof.
  induction rounds as [|a rounds IH]; simpl; [done|].
  unfold serveRound, isAcceptErr at 1.
  destruct (ar_accept a) as [c|e].
  - destruct (serve rounds) as [t st]. cbn [fst snd] in *. intros H.
    destruct (IH H) as (H1 & H2 & H3). rewrite !countb_app, H1, H3, H2.
    split_and!; reflexivity.
  - destruct (IsOpErrorTimeout e).
    + destruct (serve rounds) as [t st]. cbn [fst snd] in *. intros H.
      destruct (IH H) as (H1 & H2 & H3). rewrite !countb_app, H1, H3, H2.
      split_and!; reflexivity.
    + destruct (ar_ctxDone a); [done|].
      destruct (serve rounds) as [t st]. cbn [fst snd] in *. intros H.
      destruct (IH H) as (H1 & H2 & H3). rewrite !countb_app, H1, H3, H2.
      split_and!; reflexivity.
Qed.

(** ** The certificate holder over a whole history *)

(** X19. The last write wins, nil included.  After any history of
    rotations and handshakes the holder contains the argument of the last
    [SetClusterCertificate], or what it contained at first if there was
    none; and on a server configured by [setTLSConfig] the next callback
    call returns what [GetTLSCertificate] makes of it, or no certificate
    and no error when it is nil. *)
Theorem tlsHistory_last_write (ops : list tls_op) (s : Server) :
  crtMan_crt (tlsHistory ops s).1 = holderAfter ops (crtMan_crt s) ∧
  (tlsCfgMan_tlsCfg s = Some clusterTLSConfig →
   value_of (clientHello (tlsHistory ops s).1) =
     Some match holderAfter ops (crtMan_crt s) with
          | None => (None, None)
          | Some x => GetTLSCertificate x
          end).
Proof.
  assert (H : crtMan_crt (tlsHistory ops s).1 = holderAfter ops (crtMan_crt s)).
  { revert s. induction ops as [|[crt|] ops IH]; intros s; simpl; [done| |].
    - by rewrite IH.
    - unfold clientHello. run_method. specialize (IH s).
      by destruct (tlsHistory ops s). }
  split; [done|]. intros Hcfg. unfold clientHello. run_method.
  by rewrite tlsHistory_tlsCfg, Hcfg, H.
Qed.

(** X20. [SetClusterCertificate] does not turn TLS on.  On a server with
    no TLS configuration (its Service did not require TLS when it ran), no
    history of rotations makes the callback exist: every handshake of the
    history finds no configuration, and there is still none at the end. *)
Theorem rotation_without_tls_config (ops : list tls_op) (s : Server) :
  tlsCfgMan_tlsCfg s = None →
  (tlsHistory ops s).2 = replicate (helloCount ops) None ∧
  tlsCfgMan_tlsCfg (tlsHistory ops s).1 = None.
Proof.
  intros Hcfg. split; [|by rewrite tlsHistory_tlsCfg].
  revert s Hcfg. induction ops as [|[crt|] ops IH]; intros s Hcfg; simpl; [done| |].
  - by apply IH.
  - unfold clientHello. run_method. rewrite Hcfg. simpl.
    specialize (IH s Hcfg). destruct (tlsHistory ops s) as [s' rs].
    cbn [snd] in *. unfold helloCount in *. cbn [countb]. by rewrite IH.
Qed.

End Vigil.

(** * The statements at concrete inputs

    Collaborator types are instantiated with numbers and strings: an error
    is a gRPC-like code (5 is not-found, 4 a deadline timeout), a connection
    or a listener is a descriptor, secrets, certificates, request contexts
    and reasons are strings. *)

Local Abbreviation isNotFound := (λ e : nat, Nat.eqb e 5).
Local Abbreviation isTimeout := (λ e : nat, Nat.eqb e 4).
Local Abbreviation getCert := (λ x : string, (Some x, @None nat)).

(** A fresh server, as [New] builds it. *)
Local Abbreviation fresh := (@newServer nat string string nat nat string).

(** A Service on port 3307 that requires TLS; the port can be bound; the
    secret store has no cluster certificate. *)
Local Abbreviation world_notfound :=
  {| rw_svc := {| Spec_IsTLS := true; RealPort := 3307 |};
     rw_listen := @Ok nat nat 11;
     rw_getSecret := @Err nat string 5 |}.

(** The port is taken. *)
Local Abbreviation world_nobind :=
  {| rw_svc := {| Spec_IsTLS := true; RealPort := 3307 |};
     rw_listen := @Err nat nat 98;
     rw_getSecret := @Ok nat string "crt" |}.

Local Abbreviation run := (Run (DownstreamConn:=nat) (Reason:=string) isNotFound getCert).

(** The server after a successful [Run], with two live sessions. *)
Local Abbreviation session1 :=
  {| id := "s1"; createdAt := 10; dctx_conn := 21; dctx_reqCtx := Some "alice" |}.
Local Abbreviation session2 :=
  {| id := "s2"; createdAt := 12; dctx_conn := 22; dctx_reqCtx := Some "bob" |}.
Local Abbreviation serving :=
  (set_dctxMap (<["s1" := session1]> (<["s2" := session2]> ∅))
     (state_of (run world_notfound fresh))).

Local Abbreviation close := (Close (DownstreamConn:=nat) (Reason:=string) map_to_list).
Local Abbreviation closeCalls :=
  (CloseCalls (DownstreamConn:=nat) (Reason:=string) map_to_list).

Lemma serving_running : running serving.
Proof. unfold running. split_and!; [by eexists|by eexists|reflexivity|reflexivity]. Defined.

Lemma Close_idempotent_witness :
  running serving ∧
  Forall (λ r, r.2 = Returned None) (closeCalls 3 serving).2 ∧
  countb performedTeardown (closeCalls 3 serving).2 = 1 ∧
  countb isDoneClose (allEvents (closeCalls 3 serving).2) = 1.
Proof.
  split; [exact serving_running|].
  pose proof (Close_idempotent (DownstreamConn:=nat) (Reason:=string)
                map_to_list serving 2 serving_running) as H.
  cbv zeta in H. destruct H as (H1 & H2 & H3 & _). split_and!; assumption.
Defined.

Lemma Close_teardown_order_witness :
  running serving ∧
  ∃ (l : nat) ds,
    lis serving = Some l ∧
    ds ≡ₚ (map_to_list (dctxMap serving)).*2 ∧
    trace_of (close serving) =
      [EvCancel] ++ (EvDctxClose <$> ds) ++ [EvListenerClose l] ++ [EvDoneClose].
Proof.
  split; [exact serving_running|].
  exact (Close_teardown_order (DownstreamConn:=nat) (Reason:=string)
           map_to_list (λ m, reflexivity _) serving serving_running).
Defined.

Lemma Run_error_iff_witness :
  (∃ e, value_of (run world_nobind fresh) = Some e) ∧
  countb isGoServe (trace_of (run world_nobind fresh)) = 0 ∧
  value_of (run world_notfound fresh) = None ∧
  trace_of (run world_notfound fresh) = [EvListen 3307; EvGetSecret; EvGoServe] ∧
  running (state_of (run world_notfound fresh)) ∧
  crtMan_crt (state_of (run world_notfound fresh)) = None.
Proof.
  split_and!.
  - apply (proj1 (Run_error_iff (DownstreamConn:=nat) (Reason:=string)
                    isNotFound getCert world_nobind fresh)).
    left. exists 98. reflexivity.
  - exact (proj1 (proj2 (Run_error_iff (DownstreamConn:=nat) (Reason:=string)
                           isNotFound getCert world_nobind fresh))).
  - exact (proj1 (proj2 (proj2 (proj2
             (Run_error_iff (DownstreamConn:=nat) (Reason:=string)
                isNotFound getCert world_notfound fresh)))
             11 5 eq_refl eq_refl eq_refl eq_refl eq_refl eq_refl)).
  - exact (proj1 (proj2 (proj2 (proj2 (proj2
             (Run_error_iff (DownstreamConn:=nat) (Reason:=string)
                isNotFound getCert world_notfound fresh)))
             11 5 eq_refl eq_refl eq_refl eq_refl eq_refl eq_refl))).
  - exact (proj1 (proj2 (proj2 (proj2 (proj2 (proj2
             (Run_error_iff (DownstreamConn:=nat) (Reason:=string)
                isNotFound getCert world_notfound fresh)))
             11 5 eq_refl eq_refl eq_refl eq_refl eq_refl eq_refl)))).
  - exact (proj1 (proj2 (proj2 (proj2 (proj2 (proj2 (proj2 (proj2
             (Run_error_iff (DownstreamConn:=nat) (Reason:=string)
                isNotFound getCert world_notfound fresh)))
             11 5 eq_refl eq_refl eq_refl eq_refl eq_refl eq_refl)))))).
Defined.

(** Two handshakes around a first rotation, then the rotation to ["new"]
    and two more handshakes. *)
Lemma rotation_takes_effect_witness :
  tlsCfgMan_tlsCfg serving = Some (clusterTLSConfig getCert) ∧
  (tlsHistory (DownstreamConn:=nat) (Reason:=string)
     ([OpClientHello; OpSetClusterCertificate (Some "old"); OpClientHello]
        ++ OpSetClusterCertificate (Some "new") :: replicate 2 OpClientHello)
     serving).2
  = [Some (None, None); Some (Some "old", None);
     Some (Some "new", None); Some (Some "new", None)].
Proof.
  split; [reflexivity|].
  exact (rotation_takes_effect (DownstreamConn:=nat) (Reason:=string) getCert
           serving "new"
           [OpClientHello; OpSetClusterCertificate (Some "old"); OpClientHello]
           2 eq_refl).
Defined.

Lemma callback_without_certificate_witness :
  tlsCfgMan_tlsCfg serving = Some (clusterTLSConfig getCert) ∧
  crtMan_crt serving = None ∧
  clientHello (DownstreamConn:=nat) (Reason:=string) serving
    = (serving, [], Some (None, None)).
Proof.
  split_and!; [reflexivity|reflexivity|].
  exact (callback_without_certificate (DownstreamConn:=nat) (Reason:=string)
           getCert serving eq_refl eq_refl).
Defined.

(** The secret store is unavailable (code 14). *)
Local Abbreviation world_nostore :=
  {| rw_svc := {| Spec_IsTLS := true; RealPort := 3307 |};
     rw_listen := @Ok nat nat 11;
     rw_getSecret := @Err nat string 14 |}.

Local Abbreviation runCalls :=
  (RunCalls (DownstreamConn:=nat) (Reason:=string) isNotFound getCert).

Lemma Close_before_Run_panics_witness :
  Forall is_Some (runCalls [world_nobind; world_nostore] fresh).2 ∧
  value_of (close (runCalls [world_nobind; world_nostore] fresh).1)
    = Panicked PanicNilFunc.
Proof.
  assert (H : Forall is_Some (runCalls [world_nobind; world_nostore] fresh).2).
  { repeat constructor; eexists; reflexivity. }
  split; [exact H|].
  exact (f_equal value_of
           (Close_before_Run_panics (DownstreamConn:=nat) (Reason:=string)
              isNotFound getCert map_to_list [world_nobind; world_nostore] H)).
Defined.

(** A timeout, then two other errors (the last two with a live context, the
    first while the context is already done), then connection 41. *)
Lemma serve_resilient_witness :
  serveRound (Listener:=nat) (DownstreamConn:=nat) (ReqCtx:=string)
    (Reason:=string) isTimeout
    {| ar_accept := @AcceptErr nat nat 4; ar_ctxDone := true |}
    = ([EvAccept; EvSleep 100], LoopAccepting) ∧
  serveRound (Listener:=nat) (DownstreamConn:=nat) (ReqCtx:=string)
    (Reason:=string) isTimeout
    {| ar_accept := @AcceptErr nat nat 24; ar_ctxDone := true |}
    = ([EvAccept], LoopReturned) ∧
  serve (Listener:=nat) (DownstreamConn:=nat) (ReqCtx:=string)
    (Reason:=string) isTimeout
    (((λ e, {| ar_accept := @AcceptErr nat nat e; ar_ctxDone := false |})
        <$> [4; 24; 103])
       ++ [{| ar_accept := AcceptConn 41; ar_ctxDone := false |}])
    = (concat (replicate 3 [EvAccept; EvSleep 100])
         ++ [EvAccept; EvGoHandleConn 41], LoopAccepting).
Proof.
  pose proof (serve_resilient (Conn:=nat) (Listener:=nat) (DownstreamConn:=nat)
                (ReqCtx:=string) (Reason:=string) isTimeout)
    as (_ & H2 & H3 & H4).
  split_and!.
  - exact (H2 4 true eq_refl).
  - exact (proj1 (H3 24 eq_refl)).
  - exact (H4 [4; 24; 103] 41 false).
Defined.

(** The policy client answers: not authenticated, no error. *)
Local Abbreviation verdict_unauthenticated :=
  {| IsAuthenticated := false; IsAuthorized := false;
     RequestContext := @None string;
     AuthorizationDecisionReason := @None string |}.

(** The policy client answers: authenticated, not authorized. *)
Local Abbreviation verdict_unauthorized :=
  {| IsAuthenticated := true; IsAuthorized := false;
     RequestContext := Some "carol";
     AuthorizationDecisionReason := Some "policy-deny" |}.

(** The policy client answers: authenticated and authorized. *)
Local Abbreviation verdict_allowed :=
  {| IsAuthenticated := true; IsAuthorized := true;
     RequestContext := Some "carol";
     AuthorizationDecisionReason := Some "policy-allow" |}.

(** A connection for which everything after the gate succeeds, and whose
    session ends on an error. *)
Local Abbreviation conn_world v :=
  {| cw_now := 100;
     cw_svc := Some {| Spec_IsTLS := true; RealPort := 3307 |};
     cw_auth := @Ok nat _ v;
     cw_downstreamConn := @Ok nat nat 31;
     cw_id := "s3";
     cw_createdAt := 101;
     cw_connect := None;
     cw_serve := ServeFailed;
     cw_others := λ m : gmap string (@dctx nat string), m |}.

Local Abbreviation handle v :=
  (handleConn (Secret:=string) (Certificate:=string) (Listener:=nat)
     (conn_world v) 23 serving).

Local Abbreviation session3 v :=
  {| id := "s3"; createdAt := 101; dctx_conn := 23;
     dctx_reqCtx := RequestContext v |}.

Lemma handleConn_unauthenticated_verdict_witness :
  trace_of (handle verdict_unauthenticated) =
    [EvAuthenticateAndAuthorize 23; EvGetDownstreamConn 23;
     EvConnect (session3 verdict_unauthenticated);
     EvEmitAccessLog
       {| le_Type := SESSION_START; le_StartTime := 100;
          le_IsAuthenticated := true; le_IsAuthorized := true;
          le_ReqCtx := None; le_ConnectionID := "s3"; le_Reason := None |};
     EvRegistryInsert "s3"; EvAtRequestStart;
     EvServe (session3 verdict_unauthenticated) ServeFailed;
     EvAtRequestEnd 101;
     EvRegistryDelete "s3";
     EvEmitAccessLog
       {| le_Type := SESSION_END; le_StartTime := 100;
          le_IsAuthenticated := true; le_IsAuthorized := true;
          le_ReqCtx := None; le_ConnectionID := "s3"; le_Reason := None |};
     EvDctxClose (session3 verdict_unauthenticated)] ∧
  countb isConnClose (trace_of (handle verdict_unauthenticated)) = 0 ∧
  countb isEmitAccessLog (trace_of (handle verdict_unauthenticated)) = 2 ∧
  countb isRegistryInsert (trace_of (handle verdict_unauthenticated)) = 1.
Proof.
  exact (handleConn_unauthenticated_verdict
           (Secret:=string) (Certificate:=string) (Listener:=nat)
           (conn_world verdict_unauthenticated) 23 serving
           {| Spec_IsTLS := true; RealPort := 3307 |}
           verdict_unauthenticated 31
           eq_refl eq_refl eq_refl eq_refl eq_refl).
Defined.

Lemma handleConn_unauthorized_witness :
  trace_of (handle verdict_unauthorized) =
    [EvAuthenticateAndAuthorize 23;
     EvEmitAccessLog
       {| le_Type := SESSION_START; le_StartTime := 100;
          le_IsAuthenticated := true; le_IsAuthorized := false;
          le_ReqCtx := Some "carol"; le_ConnectionID := "";
          le_Reason := Some "policy-deny" |};
     EvConnClose 23] ∧
  countb isEmitAccessLog (trace_of (handle verdict_unauthorized)) = 1 ∧
  countb isConnect (trace_of (handle verdict_unauthorized)) = 0 ∧
  countb isRegistryInsert (trace_of (handle verdict_unauthorized)) = 0 ∧
  state_of (handle verdict_unauthorized) = serving.
Proof.
  exact (handleConn_unauthorized
           (Secret:=string) (Certificate:=string) (Listener:=nat)
           (conn_world verdict_unauthorized) 23 serving
           {| Spec_IsTLS := true; RealPort := 3307 |}
           verdict_unauthorized eq_refl eq_refl eq_refl eq_refl).
Defined.

Lemma handleConn_registry_order_witness :
  (∃ pre,
     trace_of (handle verdict_allowed) =
       pre ++ [EvRegistryInsert "s3"] ++ [EvAtRequestStart]
           ++ [EvServe (session3 verdict_allowed) ServeFailed]
           ++ [EvAtRequestEnd 101]
           ++ [EvRegistryDelete "s3"]
           ++ [EvEmitAccessLog (sessionEnd (conn_world verdict_allowed)
                                  verdict_allowed)]
           ++ [EvDctxClose (session3 verdict_allowed)] ∧
     countb isRegistryInsert pre = 0) ∧
  dctxMap (state_of (handle verdict_allowed)) !! "s3" = None.
Proof.
  destruct (handleConn_registry_order
              (Secret:=string) (Certificate:=string) (Listener:=nat)
              (conn_world verdict_allowed) 23 serving
              {| Spec_IsTLS := true; RealPort := 3307 |}
              verdict_allowed 31
              eq_refl eq_refl eq_refl eq_refl eq_refl) as (H1 & _ & H3).
  split; [exact H1|exact H3].
Defined.

(** ** The further properties at concrete inputs *)

(** The cache holds no Service. *)
Local Abbreviation conn_world_nosvc :=
  {| cw_now := 100;
     cw_svc := None;
     cw_auth := @Ok nat _ verdict_allowed;
     cw_downstreamConn := @Ok nat nat 31;
     cw_id := "s3";
     cw_createdAt := 101;
     cw_connect := None;
     cw_serve := ServeCompleted;
     cw_others := λ m : gmap string (@dctx nat string), m |}.

(** The gate is passed and the upstream connection fails (code 111). *)
Local Abbreviation conn_world_noupstream :=
  {| cw_now := 100;
     cw_svc := Some {| Spec_IsTLS := true; RealPort := 3307 |};
     cw_auth := @Ok nat _ verdict_allowed;
     cw_downstreamConn := @Ok nat nat 31;
     cw_id := "s3";
     cw_createdAt := 101;
     cw_connect := Some 111;
     cw_serve := ServeCompleted;
     cw_others := λ m : gmap string (@dctx nat string), m |}.

Local Abbreviation handleIn w :=
  (handleConn (Secret:=string) (Certificate:=string) (Listener:=nat) w 23 serving).

Lemma handleConn_frame_witness :
  countb isRegistryInsert (trace_of (handle verdict_unauthorized)) = 0 ∧
  state_of (handle verdict_unauthorized) = serving.
Proof.
  split; [reflexivity|].
  exact (proj2 (handleConn_frame (Secret:=string) (Certificate:=string)
                  (Listener:=nat) (conn_world verdict_unauthorized) 23 serving)
           eq_refl).
Defined.

Lemma handleConn_gate_first_witness :
  0 < countb isPastGate (trace_of (handle verdict_allowed)) ∧
  ∃ r rest,
    cw_auth (conn_world verdict_allowed) = Ok r ∧
    IsAuthenticated r && negb (IsAuthorized r) = false ∧
    trace_of (handle verdict_allowed) = EvAuthenticateAndAuthorize 23 :: rest ∧
    countb isAuthenticateAndAuthorize rest = 0.
Proof.
  assert (H : 0 < countb isPastGate (trace_of (handle verdict_allowed)))
    by (vm_compute; lia).
  split; [exact H|].
  exact (handleConn_gate_first (Secret:=string) (Certificate:=string)
           (Listener:=nat) (conn_world verdict_allowed) 23 serving H).
Defined.

Lemma handleConn_setup_failure_witness :
  logEntries (trace_of (handleIn conn_world_noupstream)) = [] ∧
  state_of (handleIn conn_world_noupstream) = serving ∧
  countb isConnClose (trace_of (handleIn conn_world_noupstream)) = 1.
Proof.
  destruct (handleConn_setup_failure (Secret:=string) (Certificate:=string)
              (Listener:=nat) conn_world_noupstream 23 serving
              {| Spec_IsTLS := true; RealPort := 3307 |} verdict_allowed
              eq_refl eq_refl eq_refl
              (or_intror (ex_intro _ 31 (ex_intro _ 111 (conj eq_refl eq_refl)))))
    as (H1 & H2 & _ & H4 & _).
  split_and!; assumption.
Defined.

Lemma handleConn_policy_calls_witness :
  cw_svc conn_world_nosvc = None ∧
  handleIn conn_world_nosvc = (serving, [EvConnClose 23], tt).
Proof.
  split; [reflexivity|].
  exact (proj2 (handleConn_policy_calls (Secret:=string) (Certificate:=string)
                  (Listener:=nat) conn_world_nosvc 23 serving) eq_refl).
Defined.

Lemma handleConn_registry_round_trip_witness :
  dctxMap serving !! "s3" = None ∧
  state_of (handle verdict_allowed) = serving.
Proof.
  split; [reflexivity|].
  exact (proj2 (handleConn_registry_round_trip (Secret:=string)
                  (Certificate:=string) (Listener:=nat)
                  (conn_world verdict_allowed) 23 serving (λ m, eq_refl))
           eq_refl).
Defined.

(** A Service on port 3307 that does not require TLS. *)
Local Abbreviation world_plain :=
  {| rw_svc := {| Spec_IsTLS := false; RealPort := 3307 |};
     rw_listen := @Ok nat nat 11;
     rw_getSecret := @Err nat string 14 |}.

(** The secret store holds the cluster certificate. *)
Local Abbreviation world_found :=
  {| rw_svc := {| Spec_IsTLS := true; RealPort := 3307 |};
     rw_listen := @Ok nat nat 11;
     rw_getSecret := @Ok nat string "crt" |}.

Lemma Run_plain_service_witness :
  countb isGetSecret (trace_of (run world_plain fresh)) = 0 ∧
  tlsCfgMan_tlsCfg (state_of (run world_plain fresh)) = None ∧
  value_of (run world_plain fresh) = None.
Proof.
  destruct (Run_plain_service (DownstreamConn:=nat) (Reason:=string)
              isNotFound getCert world_plain fresh eq_refl)
    as (H1 & _ & H3 & H4).
  split_and!; [exact H1|exact H3|].
  apply (proj2 H4). exists 11. reflexivity.
Defined.

Lemma Run_store_failure_keeps_listener_witness :
  run world_nostore fresh
    = (set_lis (Some 11) fresh, [EvListen 3307; EvGetSecret], Some 14).
Proof.
  exact (proj1 (Run_store_failure_keeps_listener (DownstreamConn:=nat)
                  (Reason:=string) isNotFound getCert world_nostore fresh
                  11 14 eq_refl eq_refl eq_refl eq_refl)).
Defined.

Lemma Run_installs_store_certificate_witness :
  value_of (clientHello (DownstreamConn:=nat) (Reason:=string)
              (state_of (run world_found fresh)))
    = Some (Some "crt", None).
Proof.
  exact (proj2 (Run_installs_store_certificate (DownstreamConn:=nat)
                  (Reason:=string) isNotFound getCert world_found fresh
                  11 "crt" eq_refl eq_refl eq_refl)).
Defined.

Lemma Run_then_Close_witness :
  value_of (run world_notfound fresh) = None ∧
  ∃ l, rw_listen world_notfound = Ok l ∧
       trace_of (close (state_of (run world_notfound fresh)))
         = [EvCancel; EvListenerClose l; EvDoneClose] ∧
       value_of (close (state_of (run world_notfound fresh))) = Returned None ∧
       doneComplete (state_of (close (state_of (run world_notfound fresh))))
         = ChanClosed.
Proof.
  split; [reflexivity|].
  exact (Run_then_Close (DownstreamConn:=nat) (Reason:=string)
           isNotFound getCert map_to_list (λ m, reflexivity _)
           world_notfound eq_refl).
Defined.

Lemma Close_after_rerun_does_nothing_witness :
  isClosed (state_of (close serving)) = true ∧
  value_of (run world_notfound (state_of (close serving))) = None ∧
  close (state_of (run world_notfound (state_of (close serving))))
    = (state_of (run world_notfound (state_of (close serving))), [],
       Returned None).
Proof.
  split_and!; [reflexivity|reflexivity|].
  exact (Close_after_rerun_does_nothing (DownstreamConn:=nat) (Reason:=string)
           isNotFound getCert map_to_list world_notfound
           (state_of (close serving)) eq_refl).
Defined.

Lemma Close_panic_then_nothing_witness :
  closeCalls 3 fresh =
    (set_isClosed true fresh,
     [([], Panicked PanicNilFunc); ([], Returned None); ([], Returned None)]) ∧
  doneComplete (closeCalls 3 fresh).1 = ChanOpen.
Proof.
  exact (Close_panic_then_nothing (DownstreamConn:=nat) (Reason:=string)
           map_to_list fresh 2 eq_refl eq_refl).
Defined.

Lemma Run_bind_failure_drops_listener_witness :
  running serving ∧
  lis (state_of (run world_nobind serving)) = None ∧
  value_of (close (state_of (run world_nobind serving))) = Returned None ∧
  countb isListenerClose (trace_of (close (state_of (run world_nobind serving))))
    = 0.
Proof.
  split; [exact serving_running|].
  destruct (Run_bind_failure_drops_listener (DownstreamConn:=nat)
              (Reason:=string) isNotFound getCert map_to_list
              world_nobind serving 98 serving_running eq_refl)
    as (_ & H2 & _ & H4).
  split_and!; [reflexivity|exact H2|exact H4].
Defined.

(** Connection 41, a timeout, connection 42, an error under a live context,
    connection 43. *)
Local Abbreviation rounds_live :=
  [ {| ar_accept := @AcceptConn nat nat 41; ar_ctxDone := false |};
    {| ar_accept := AcceptErr 4; ar_ctxDone := true |};
    {| ar_accept := AcceptConn 42; ar_ctxDone := false |};
    {| ar_accept := AcceptErr 24; ar_ctxDone := false |};
    {| ar_accept := AcceptConn 43; ar_ctxDone := false |} ].

Local Abbreviation serveOn :=
  (serve (Listener:=nat) (DownstreamConn:=nat) (ReqCtx:=string)
     (Reason:=string) isTimeout).

Lemma serve_dispatches_accepted_witness :
  (serveOn rounds_live).2 = LoopAccepting ∧
  dispatchedConns (serveOn rounds_live).1 = [41; 42; 43].
Proof.
  split; [reflexivity|].
  exact (proj2 (serve_dispatches_accepted (Listener:=nat) (DownstreamConn:=nat)
                  (ReqCtx:=string) (Reason:=string) isTimeout rounds_live)
           eq_refl).
Defined.

Lemma serve_accepts_and_sleeps_witness :
  (serveOn rounds_live).2 = LoopAccepting ∧
  countb isAccept (serveOn rounds_live).1 = 5 ∧
  countb isSleep (serveOn rounds_live).1 = 2 ∧
  countb isSleep100 (serveOn rounds_live).1 = 2.
Proof.
  split; [reflexivity|].
  exact (serve_accepts_and_sleeps (Listener:=nat) (DownstreamConn:=nat)
           (ReqCtx:=string) (Reason:=string) isTimeout rounds_live eq_refl).
Defined.

(** A rotation to ["old"], a handshake, then a rotation to nil. *)
Lemma tlsHistory_last_write_witness :
  tlsCfgMan_tlsCfg serving = Some (clusterTLSConfig getCert) ∧
  value_of (clientHello (DownstreamConn:=nat) (Reason:=string)
              (tlsHistory (DownstreamConn:=nat) (Reason:=string)
                 [OpSetClusterCertificate (Some "old"); OpClientHello;
                  OpSetClusterCertificate None] serving).1)
    = Some (None, None).
Proof.
  split; [reflexivity|].
  exact (proj2 (tlsHistory_last_write (DownstreamConn:=nat) (Reason:=string)
                  getCert
                  [OpSetClusterCertificate (Some "old"); OpClientHello;
                   OpSetClusterCertificate None] serving) eq_refl).
Defined.

Lemma rotation_without_tls_config_witness :
  tlsCfgMan_tlsCfg (state_of (run world_plain fresh)) = None ∧
  (tlsHistory (DownstreamConn:=nat) (Reason:=string)
     [OpClientHello; OpSetClusterCertificate (Some "new"); OpClientHello]
     (state_of (run world_plain fresh))).2 = [None; None].
Proof.
  split; [reflexivity|].
  exact (proj1 (rotation_without_tls_config (Certificate:=string)
                  (DownstreamConn:=nat) (Reason:=string)
                  [OpClientHello; OpSetClusterCertificate (Some "new");
                   OpClientHello]
                  (state_of (run world_plain fresh)) eq_refl)).
Defined.

(** The upstream connection fails: the protocol connection is closed, then
    the socket. *)
Lemma handleConn_ends_by_closing_witness :
  0 < countb isDownstreamConnClose (trace_of (handleIn conn_world_noupstream)) ∧
  last (trace_of (handleIn conn_world_noupstream)) = Some (EvConnClose 23) ∧
  countb isConnClose (trace_of (handleIn conn_world_noupstream)) = 1 ∧
  ∃ dc e pre,
    cw_downstreamConn conn_world_noupstream = Ok dc ∧
    cw_connect conn_world_noupstream = Some e ∧
    trace_of (handleIn conn_world_noupstream)
      = pre ++ [EvDownstreamConnClose dc; EvConnClose 23].
Proof.
  assert (H : 0 < countb isDownstreamConnClose
                    (trace_of (handleIn conn_world_noupstream)))
    by (vm_compute; lia).
  split; [exact H|].
  destruct (handleConn_ends_by_closing (Secret:=string) (Certificate:=string)
              (Listener:=nat) conn_world_noupstream 23 serving)
    as [(H1 & H2 & _ & _ & _ & H6)|(r & _ & _ & _ & Hn & _)].
  - split_and!; [exact H1|exact H2|exact (H6 H)].
  - discriminate Hn.
Defined.
